(** * WRS: a shallow embedding of [readlib.py]

    The script fetches article feeds, keeps the entries published inside a
    window of calendar dates, and (optionally) asks a text-generation backend
    for summaries.  This file embeds the Python functions of [readlib.py] as
    Rocq functions and proves the properties its specification states.

    Conventions of the embedding:
    - a Python call that may raise returns a [result]; an [exn] stands for an
      instance of a subclass of Python's [Exception] (what [except Exception]
      catches); [KeyboardInterrupt] and [SystemExit] are process control, not
      failures of the code, and are not modelled;
    - code that prints runs in [io], a writer over the printed lines on top of
      [result]: lines printed before an exception stay printed;
    - library calls the script does not define ([time.mktime],
      [datetime.fromtimestamp], [feedparser.parse], [genai.Client],
      [generate_content]) are Section variables, so every theorem holds for
      all their behaviours; a fixed-offset time zone instantiates the time
      calls where a theorem is run on concrete entries. *)

From Stdlib Require Import ZArith Lia List Ascii String.
From stdpp Require Import base option list strings gmap pretty sorting.

Local Open Scope Z_scope.
#[local] Set Warnings "-register-all".

(** ** Python exceptions and results *)

Inductive exn_class :=
  | TypeError | NameError | KeyError | AttributeError | IndexError
  | OverflowError | ValueError | OSError | ImportError.

Record exn := Exn { exn_cls : exn_class; exn_msg : string }.

Inductive result (A : Type) :=
  | Ok (a : A)
  | Raise (e : exn).
Arguments Ok {A} a.
Arguments Raise {A} e.

#[global] Instance exn_class_eq_dec : EqDecision exn_class.
Proof. solve_decision. Defined.
#[global] Instance exn_eq_dec : EqDecision exn.
Proof. solve_decision. Defined.
#[global] Instance result_eq_dec `{EqDecision A} : EqDecision (result A).
Proof. solve_decision. Defined.

Definition result_bind {A B} (f : A → result B) (m : result A) : result B :=
  match m with
  | Ok a => f a
  | Raise e => Raise e
  end.

#[global] Instance result_ret : MRet result := λ A a, Ok a.
#[global] Instance result_mbind : MBind result := λ A B f m, result_bind f m.

(** [io A]: the lines printed so far, and the outcome. *)
Definition io (A : Type) : Type := (list string * result A)%type.

Definition io_bind {A B} (f : A → io B) (m : io A) : io B :=
  match m with
  | (out, Ok a) => let '(out', r) := f a in (out ++ out', r)
  | (out, Raise e) => (out, Raise e)
  end.

#[global] Instance io_ret : MRet io := λ A a, ([], Ok a).
#[global] Instance io_mbind : MBind io := λ A B f m, io_bind f m.

Definition print (line : string) : io unit := ([line], Ok tt).
Definition lift {A} (r : result A) : io A := ([], r).
Definition raise {A} (cls : exn_class) (msg : string) : result A :=
  Raise (Exn cls msg).

(** [try: body except Exception as e: handler e] *)
Definition try_except {A} (body : io A) (handler : exn → io A) : io A :=
  match body with
  | (out, Ok a) => (out, Ok a)
  | (out, Raise e) => let '(out', r) := handler e in (out ++ out', r)
  end.

(** ** Dates and times *)

(** [datetime.date]: compared as the tuple (year, month, day). *)
Record date := Date { year : Z; month : Z; day : Z }.

#[global] Instance date_eq_dec : EqDecision date.
Proof. solve_decision. Defined.

(** A naive [datetime.datetime]: compared as the tuple of its fields. *)
Record datetime := DateTime {
  dt_date : date;
  hour : Z;
  minute : Z;
  second : Z;
  microsecond : Z;
}.

#[global] Instance datetime_eq_dec : EqDecision datetime.
Proof. solve_decision. Defined.

(** [time.struct_time], the 9-tuple feedparser stores in [*_parsed]. *)
Record struct_time := StructTime {
  tm_year : Z; tm_mon : Z; tm_mday : Z;
  tm_hour : Z; tm_min : Z; tm_sec : Z;
  tm_wday : Z; tm_yday : Z; tm_isdst : Z;
}.

(** Lexicographic comparison of integer tuples, as Python compares the
    field tuples of [date] and [datetime]. *)
Fixpoint lex_compare (a b : list Z) : comparison :=
  match a, b with
  | [], [] => Eq
  | [], _ :: _ => Lt
  | _ :: _, [] => Gt
  | x :: a', y :: b' =>
      match x ?= y with
      | Eq => lex_compare a' b'
      | c => c
      end
  end.

Definition date_tuple (d : date) : list Z := [year d; month d; day d].

Definition datetime_tuple (t : datetime) : list Z :=
  date_tuple (dt_date t) ++ [hour t; minute t; second t; microsecond t].

Definition date_compare (a b : date) : comparison :=
  lex_compare (date_tuple a) (date_tuple b).

Definition datetime_compare (a b : datetime) : comparison :=
  lex_compare (datetime_tuple a) (datetime_tuple b).

(** [a <= b] on dates. *)
Definition date_le (a b : date) : bool :=
  match date_compare a b with Gt => false | _ => true end.

(** [a < b] and [a >= b] on datetimes. *)
Definition datetime_lt (a b : datetime) : bool :=
  match datetime_compare a b with Lt => true | _ => false end.

Definition datetime_ge (a b : datetime) : bool := negb (datetime_lt a b).

(** Proleptic Gregorian ordinals: [date(1, 1, 1).toordinal() = 1]. *)
Definition date_toordinal (d : date) : Z :=
  let y := if month d <=? 2 then year d - 1 else year d in
  let era := y / 400 in
  let yoe := y - era * 400 in
  let mp := if 2 <? month d then month d - 3 else month d + 9 in
  let doy := (153 * mp + 2) / 5 + day d - 1 in
  let doe := yoe * 365 + yoe / 4 - yoe / 100 + doy in
  era * 146097 + doe - 305.

Definition date_fromordinal (n : Z) : date :=
  let z := n + 305 in
  let era := z / 146097 in
  let doe := z - era * 146097 in
  let yoe := (doe - doe / 1460 + doe / 36524 - doe / 146096) / 365 in
  let doy := doe - (365 * yoe + yoe / 4 - yoe / 100) in
  let mp := (5 * doy + 2) / 153 in
  let d := doy - (153 * mp + 2) / 5 + 1 in
  let m := if mp <? 10 then mp + 3 else mp - 9 in
  let y := yoe + era * 400 in
  Date (if m <=? 2 then y + 1 else y) m d.

(** [date.max.toordinal()], the ordinal of 9999-12-31. *)
Definition max_ordinal : Z := 3652059.

(** [d - datetime.timedelta(days=n)] *)
Definition date_sub_days (d : date) (n : Z) : result date :=
  let o := date_toordinal d - n in
  if (1 <=? o) && (o <=? max_ordinal) then Ok (date_fromordinal o)
  else raise OverflowError "date value out of range".

(** ** Python values stored in records *)

Inductive pyval :=
  | VNone
  | VStr (s : string)
  | VInt (n : Z)
  | VDateTime (t : datetime)
  | VList (l : list pyval)
  | VDict (kv : list (string * pyval)).

(** ** Feed entries

    A feedparser entry is a dict whose keys are optional: [None] below is an
    absent key.  [published_parsed] and [updated_parsed], when present, hold
    a [struct_time] or Python's [None] (feedparser stores [None] when it
    could not read the date text). *)
Record entry := Entry {
  title : option string;
  link : option string;
  published_parsed : option (option struct_time);
  updated_parsed : option (option struct_time);
  source : option pyval;
  summary : option string;
  content : option pyval;
  tags : option pyval;
}.

(** [str.lower] on ASCII letters. *)
Definition lower_ascii (c : ascii) : ascii :=
  let n := nat_of_ascii c in
  if ((65 <=? n) && (n <=? 90))%nat then ascii_of_nat (n + 32) else c.

Fixpoint lower (s : string) : string :=
  match s with
  | EmptyString => EmptyString
  | String c s' => String (lower_ascii c) (lower s')
  end.

(** [hasattr(entry, f) and entry.f]: the value when the attribute exists and
    is truthy (a [struct_time] is a non-empty tuple, hence truthy). *)
Definition truthy_attr (field : option (option struct_time)) : option struct_time :=
  match field with
  | Some (Some t) => Some t
  | Some None => None
  | None => None
  end.

(** Lines 98-103: the [if]/[elif] that picks [date_struct]. *)
Definition date_struct (e : entry) : option struct_time :=
  match truthy_attr (published_parsed e) with
  | Some t => Some t
  | None =>
      match truthy_attr (updated_parsed e) with
      | Some t => Some t
      | None => None
      end
  end.

(** Lines 112-120: the dict appended for an entry that passed the date
    check; [entry.get(key, default)] is [default] on the optional field. *)
Definition article_record (e : entry) (published_datetime : datetime)
  : gmap string pyval :=
  list_to_map [
    ("title", VStr (default "No title" (title e)));
    ("url", VStr (default "No link" (link e)));
    ("published_datetime", VDateTime published_datetime);
    ("source", default (VStr "Unknown source") (source e));
    ("summary", VStr (default "No summary" (summary e)));
    ("content", default (VList []) (content e));
    ("keywords", default (VList []) (tags e))
  ]%string.

(** [start_date <= d <= end_date], a chained comparison. *)
Definition in_window (start_date end_date d : date) : bool :=
  date_le start_date d && date_le d end_date.

Section Filter.

(** [time.mktime]: local broken-down time to seconds since the epoch (a
    whole number, returned as a float); raises [OverflowError] out of the
    platform's range. *)
Variable time_mktime : struct_time → result Z.

(** [datetime.datetime.fromtimestamp]: seconds since the epoch to the
    local naive datetime; raises out of the supported range. *)
Variable datetime_fromtimestamp : Z → result datetime.

(** Line 108. *)
Definition published_datetime_of (ds : struct_time) : result datetime :=
  ts ← time_mktime ds;
  datetime_fromtimestamp ts.

(** The [for] loop of lines 92-120; [filtered_articles] is the list being
    appended to. *)
Fixpoint filter_loop (articles : list entry) (start_date end_date : date)
    (filtered_articles : list (gmap string pyval))
  : result (list (gmap string pyval)) :=
  match articles with
  | [] => Ok filtered_articles
  | e :: rest =>
      let is_research := true in
      let title_lower := lower (default EmptyString (title e)) in
      match date_struct e with
      | Some ds =>
          published_datetime ← published_datetime_of ds;
          if in_window start_date end_date (dt_date published_datetime)
          then filter_loop rest start_date end_date
                 (filtered_articles ++ [article_record e published_datetime])
          else filter_loop rest start_date end_date filtered_articles
      | None => filter_loop rest start_date end_date filtered_articles
      end
  end.

Definition filter_articles_by_date_range (articles : list entry)
    (start_date end_date : date) : result (list (gmap string pyval)) :=
  filter_loop articles start_date end_date [].

End Filter.

(** [d[k]] on a dict with string keys. *)
Definition getitem (d : gmap string pyval) (k : string) : result pyval :=
  match d !! k with
  | Some v => Ok v
  | None => raise KeyError ("'" +:+ k +:+ "'")
  end.

(** ** The sort of the report ([list.sort] with a key)

    CPython's [list.sort(key=..., reverse=True)] computes the key of every
    element first, reverses the list, runs a stable ascending sort that only
    uses [<] on keys, and reverses the result.  The stable sort is modelled
    by insertion: the result of a stable sort is determined by its input
    ([sort_decorated_unique] below), so the choice of algorithm does not
    show. *)
Section ListSort.
Context {K A : Type} `{EqDecision K}.
Variable lt : K → K → bool.

(** Put [x] after every element that is not greater than it. *)
Fixpoint insert_sorted (x : K * A) (l : list (K * A)) : list (K * A) :=
  match l with
  | [] => [x]
  | y :: l' => if lt (fst x) (fst y) then x :: y :: l' else y :: insert_sorted x l'
  end.

Definition stable_sort (l : list (K * A)) : list (K * A) :=
  fold_left (λ sorted x, insert_sorted x sorted) l [].

Definition sort_decorated (reversed : bool) (l : list (K * A)) : list (K * A) :=
  if reversed then reverse (stable_sort (reverse l)) else stable_sort l.

(** [a] may stand before [b] in ascending order. *)
Definition key_le (a b : K * A) : Prop := lt (fst b) (fst a) = false.

Definition has_key (k : K) (p : K * A) : Prop := fst p = k.

#[global] Instance has_key_dec k p : Decision (has_key k p).
Proof. unfold has_key. apply _. Defined.
End ListSort.

(** The key of line 236, [lambda x: x['published_datetime']].  The filter
    only ever stores a datetime under this key, and the sort is modelled for
    datetime keys: a value of another type is reported as a [TypeError]. *)
Definition published_key (x : gmap string pyval) : result datetime :=
  v ← getitem x "published_datetime";
  match v with
  | VDateTime t => Ok t
  | _ => raise TypeError "key is not a datetime"
  end.

Fixpoint decorate (l : list (gmap string pyval))
  : result (list (datetime * gmap string pyval)) :=
  match l with
  | [] => Ok []
  | x :: l' =>
      k ← published_key x;
      ks ← decorate l';
      Ok ((k, x) :: ks)
  end.

(** Line 236: [all_new_articles.sort(key=..., reverse=True)]. *)
Definition sort_articles (all_new_articles : list (gmap string pyval))
  : result (list (gmap string pyval)) :=
  ks ← decorate all_new_articles;
  Ok (map snd (sort_decorated datetime_lt true ks)).

(** ** Prompt templates *)

Definition prompt : string :=
  "You are a helpful assistant that summarizes scientific articles. " +:+
  "Here are the latest articles from a feed source:" +:+
  "{}" +:+
  "In a few sentences, answer the following questions:" +:+
  "What type of article is this?" +:+
  "What research area is this research about?" +:+
  "what is the most important message of this publication?" +:+
  "What applications does this research have?".

Definition prompt2 : string :=
  "You are a helpful assistant that summarizes scientific articles. " +:+
  "Here are many summaries of a collection of articles." +:+
  "{}" +:+
  "In a few sentences and concise language, describe the major themes of these articles." +:+
  "Provide links to a few important articles in [[number]](url)] style." +:+
  "The links should be integrated into the text, not listed separately.".

Definition model_name : string := "gemini-2.0-flash".

(** [template.format(args...)] for templates whose only replacement fields are
    the automatic [{}]; doubled braces are literal braces.  Arguments left
    over are ignored, as Python does. *)
Fixpoint format (template : string) (args : list string) : result string :=
  match template with
  | EmptyString => Ok EmptyString
  | String "{" (String "}" rest) =>
      match args with
      | a :: args' => r ← format rest args'; Ok (a +:+ r)
      | [] => raise IndexError "Replacement index 0 out of range for positional args tuple"
      end
  | String "{" (String "{" rest) => r ← format rest args; Ok (String "{" r)
  | String "}" (String "}" rest) => r ← format rest args; Ok (String "}" r)
  | String "{" _ => raise ValueError "replacement field other than {}"
  | String "}" _ => raise ValueError "Single '}' encountered in format string"
  | String c rest => r ← format rest args; Ok (String c r)
  end.

(** [sep.join(items)] *)
Fixpoint join (sep : string) (items : list string) : string :=
  match items with
  | [] => EmptyString
  | [s] => s
  | s :: rest => s +:+ sep +:+ join sep rest
  end.

Definition newline : string := String "010" EmptyString.

(** Has [p] as a prefix / contains [p] somewhere. *)
Fixpoint contains (p s : string) : bool :=
  String.prefix p s ||
  match s with
  | EmptyString => false
  | String _ s' => contains p s'
  end.

(** ** Text of values in f-strings *)

(** [str(n)] for an integer. *)
Definition str_int (n : Z) : string := pretty n.

(** Left-pad with zeros to [width] characters, as [%02d] and [%04d] do. *)
Fixpoint zeros (n : nat) : string :=
  match n with
  | O => EmptyString
  | S n' => String "0" (zeros n')
  end.

Definition zfill (width : nat) (s : string) : string :=
  zeros (width - String.length s) +:+ s.

(** [d.strftime('%Y-%m-%d')] (years of four digits). *)
Definition strftime_ymd (d : date) : string :=
  zfill 4 (str_int (year d)) +:+ "-" +:+ zfill 2 (str_int (month d)) +:+ "-" +:+
  zfill 2 (str_int (day d)).

(** [c * n] for a one-character string. *)
Fixpoint repeat_char (c : ascii) (n : nat) : string :=
  match n with
  | O => EmptyString
  | S n' => String c (repeat_char c n')
  end.

(** [str(v)] as an f-string inserts it.  Strings and integers are exact;
    the text of the other values (their [repr]) is only ever displayed and
    is rendered without escapes. *)
Fixpoint py_str (v : pyval) : string :=
  match v with
  | VNone => "None"
  | VStr s => s
  | VInt n => str_int n
  | VDateTime t =>
      strftime_ymd (dt_date t) +:+ " " +:+ zfill 2 (str_int (hour t)) +:+ ":" +:+
      zfill 2 (str_int (minute t)) +:+ ":" +:+ zfill 2 (str_int (second t)) +:+
      (if microsecond t =? 0 then EmptyString
       else "." +:+ zfill 6 (str_int (microsecond t)))
  | VList l => "[" +:+ join ", " (map py_str l) +:+ "]"
  | VDict kv =>
      "{" +:+ join ", " (map (λ p, "'" +:+ fst p +:+ "': " +:+ py_str (snd p)) kv) +:+ "}"
  end.

(** ** The summarization backend (lines 28-45, 123-159) *)

Section Backend.

(** The handle [genai.Client(...)] returns. *)
Variable client_t : Type.

(** [genai.Client(api_key=k)] *)
Variable genai_Client : string → result client_t.

(** [client.models.generate_content(model=m, contents=c).text] *)
Variable generate_content : client_t → string → string → result string.

(** Lines 30-45, run when the module is loaded.  The result is the binding
    of the global name [client]: [None] when the name was never assigned.
    An empty key is as falsy as a missing one. *)
Definition init_client (environ : gmap string string) : io (option client_t) :=
  try_except
    (match environ !! "GOOGLE_API_KEY"%string with
     | Some (String c k) =>
         client ← lift (genai_Client (String c k));
         mret (Some client)
     | Some EmptyString | None =>
         print "Warning: GOOGLE_API_KEY environment variable not set. Summarization will be skipped.";;
         mret None
     end)
    (λ e,
       match exn_cls e with
       | ImportError =>
           print "Warning: The 'google.genai' package is not installed. Summarization will be skipped."
       | _ =>
           print ("Error initializing Gemini client: " +:+ exn_msg e +:+
                  ". Summarization will be skipped.")
       end;;
       mret None).

(** Reading the global [client]. *)
Definition load_client (client : option client_t) : result client_t :=
  match client with
  | Some c => Ok c
  | None => raise NameError "name 'client' is not defined"
  end.

(** Lines 123-140. *)
Definition summarize_article (client : option client_t) (article_entry : pyval)
  : result string :=
  c ← load_client client;
  contents ← format prompt [py_str article_entry];
  generate_content c model_name contents.

(** Lines 142-159. *)
Definition analyze_article_collection (client : option client_t)
    (articles_summaries : list string) : result string :=
  let summaries := join (newline +:+ newline +:+ newline) articles_summaries in
  c ← load_client client;
  contents ← format prompt2 [summaries];
  generate_content c model_name contents.

End Backend.

(** ** Fetching a feed (lines 49-73) *)

(** What [feedparser.parse] returns: [bozo] is set on a document that is not
    well formed, and [bozo_exception] then holds the parser's error. *)
Record parsed_feed := ParsedFeed {
  bozo : bool;
  bozo_exception : option exn;
  entries : list entry;
}.

Section Fetch.

Variable feedparser_parse : string → result parsed_feed.

Definition get_articles_from_rss (feed_url : string) : io (list entry) :=
  try_except
    (parsed ← lift (feedparser_parse feed_url);
     (if bozo parsed then
        error_message ← lift (match bozo_exception parsed with
                              | Some e => Ok e
                              | None => raise AttributeError "object has no attribute 'bozo_exception'"
                              end);
        print ("Warning: Feed at " +:+ feed_url +:+ " is not well-formed. Error: " +:+
               exn_msg error_message)
      else mret tt);;
     mret (entries parsed))
    (λ e,
       print ("An unexpected error occurred while fetching " +:+ feed_url +:+ ": " +:+
              exn_msg e);;
       mret []).

End Fetch.

(** ** The script ([__main__], lines 197-244) *)

(** A positional argument of a call. *)
Inductive pyarg :=
  | AEntries (l : list entry)
  | ADate (d : date)
  | AStr (s : string).

Definition target_feeds : list (string * string) :=
  [("Nature", "http://feeds.nature.com/nature/rss/current");
   ("Science", "https://www.science.org/rss/news_current.xml")]%string.

Section Main.

Variable time_mktime : struct_time → result Z.
Variable datetime_fromtimestamp : Z → result datetime.
Variable feedparser_parse : string → result parsed_feed.

(** [datetime.date.today()] *)
Variable today : date.

(** Calling [filter_articles_by_date_range] with positional arguments: the
    signature of line 75 has three parameters, and Python binds the
    arguments before the body runs.  The script only ever passes a list of
    entries, two dates and a string. *)
Definition call_filter_articles_by_date_range (args : list pyarg)
  : result (list (gmap string pyval)) :=
  let given := length args in
  if (3 <? given)%nat then
    raise TypeError ("filter_articles_by_date_range() takes 3 positional arguments but " +:+
                     pretty given +:+ " were given")
  else if (given <? 3)%nat then
    raise TypeError "filter_articles_by_date_range() missing required positional arguments"
  else
    match args with
    | [AEntries articles; ADate start_date; ADate end_date] =>
        filter_articles_by_date_range time_mktime datetime_fromtimestamp
          articles start_date end_date
    | _ => raise TypeError "argument of an unexpected type"
    end.

(** The [for source_name, feed_url in target_feeds.items()] loop. *)
Fixpoint feeds_loop (feeds : list (string * string)) (one_day_ago : date)
    (all_new_articles : list (gmap string pyval)) : io (list (gmap string pyval)) :=
  match feeds with
  | [] => mret all_new_articles
  | (source_name, feed_url) :: rest =>
      print ("--- Processing feed: " +:+ source_name +:+ " ---");;
      all_entries ← get_articles_from_rss feedparser_parse feed_url;
      all_new_articles ←
        match all_entries with
        | _ :: _ =>
            todays_articles ← lift (call_filter_articles_by_date_range
              [AEntries all_entries; ADate one_day_ago; ADate today; AStr source_name]);
            match todays_articles with
            | _ :: _ =>
                print ("Found " +:+ pretty (length todays_articles) +:+
                       " new articles from this week.");;
                mret (all_new_articles ++ todays_articles)
            | [] =>
                print "No new articles found for this week.";;
                mret all_new_articles
            end
        | [] => mret all_new_articles
        end;
      print (repeat_char "-" (String.length source_name + 20) +:+ newline);;
      feeds_loop rest one_day_ago all_new_articles
  end.

(** The [for i, article in enumerate(all_new_articles, 1)] loop. *)
Fixpoint listing_loop (i : Z) (articles : list (gmap string pyval)) : io unit :=
  match articles with
  | [] => mret tt
  | article :: rest =>
      published ← lift (getitem article "published_datetime");
      pub_date ← lift (match published with
                       | VDateTime t => Ok (strftime_ymd (dt_date t))
                       | _ => raise AttributeError "object has no attribute 'strftime'"
                       end);
      title ← lift (getitem article "title");
      print (newline +:+ str_int i +:+ ". " +:+ py_str title);;
      source ← lift (getitem article "source");
      print ("   Source: " +:+ py_str source +:+ " (" +:+ pub_date +:+ ")");;
      url ← lift (getitem article "url");
      print ("   URL: " +:+ py_str url);;
      listing_loop (i + 1) rest
  end.

Definition main : io unit :=
  one_day_ago ← lift (date_sub_days today 7);
  print ("Fetching articles published between " +:+ strftime_ymd one_day_ago +:+
         " and " +:+ strftime_ymd today +:+ newline);;
  all_new_articles ← feeds_loop target_feeds one_day_ago [];
  match all_new_articles with
  | _ :: _ =>
      print ("--- Found a total of " +:+ pretty (length all_new_articles) +:+
             " new articles from this week ---");;
      all_new_articles ← lift (sort_articles all_new_articles);
      listing_loop 1 all_new_articles
  | [] => print "No new articles found in Nature or Science from the past week."
  end.

End Main.

(** ** The HTML wrapper (lines 161-183) *)



(** ** The list of sources (lines 185-195)

    The document [yaml.safe_load] returns for a list of sources is nothing
    (Python's [None], for an empty file) or a sequence of mappings from
    string keys to string values. *)

(** [item[k]] on a mapping of strings. *)
Definition item_getitem (item : gmap string string) (k : string) : result string :=
  match item !! k with
  | Some v => Ok v
  | None => raise KeyError ("'" +:+ k +:+ "'")
  end.

(** The [for item in rss_data] loop.  In the assignment of line 194 Python
    evaluates the right-hand side, [item["url"]], before the key
    [item["name"]]. *)
Fixpoint read_items (rss_data : list (gmap string string))
    (rss_data_processed : gmap string string) : result (gmap string string) :=
  match rss_data with
  | [] => Ok rss_data_processed
  | item :: rest =>
      url ← item_getitem item "url";
      name ← item_getitem item "name";
      read_items rest (<[name := url]> rss_data_processed)
  end.

Section Config.

(** [open(rss_dir, "r")] followed by [yaml.safe_load(file)]. *)
Variable load_yaml : string → result (option (list (gmap string string))).

Definition read_rss_from_yaml (rss_dir : string) : result (gmap string string) :=
  rss_data ← load_yaml rss_dir;
  match rss_data with
  | Some (item :: rest) => read_items (item :: rest) ∅
  | Some [] | None => Ok ∅
  end.

End Config.

(** ** A time zone at a fixed offset from UTC

    An instance of the two time calls, used to run the filter on concrete
    entries: local time is UTC plus [utcoffset] seconds all year. *)

Definition epoch_ordinal : Z := 719163.

Definition mktime_fixed (utcoffset : Z) (t : struct_time) : result Z :=
  let days := date_toordinal (Date (tm_year t) (tm_mon t) (tm_mday t)) - epoch_ordinal in
  Ok (days * 86400 + tm_hour t * 3600 + tm_min t * 60 + tm_sec t - utcoffset).

Definition fromtimestamp_fixed (utcoffset : Z) (ts : Z) : result datetime :=
  let local := ts + utcoffset in
  let o := local / 86400 + epoch_ordinal in
  let secs := local mod 86400 in
  if (1 <=? o) && (o <=? max_ordinal)
  then Ok (DateTime (date_fromordinal o) (secs / 3600) (secs mod 3600 / 60) (secs mod 60) 0)
  else raise ValueError "year is out of range".

(** Entries used to run the code. *)
Definition noon (y m d : Z) : struct_time := StructTime y m d 12 0 0 0 0 0.

Definition blank_entry : entry :=
  Entry None None None None None None None None.

Definition entry_published (t : struct_time) : entry :=
  Entry (Some "A title"%string) (Some "http://example.org/a"%string)
        (Some (Some t)) None None None None None.

Definition entry_updated (t : struct_time) : entry :=
  Entry (Some "B title"%string) None (Some None) (Some (Some t)) None None None None.

(** ** What one entry contributes to the filter's result *)

Section FilterView.

Variable time_mktime : struct_time → result Z.
Variable datetime_fromtimestamp : Z → result datetime.

(** The records one pass of the loop body appends for [e]. *)
Definition entry_articles (start_date end_date : date) (e : entry)
  : result (list (gmap string pyval)) :=
  match date_struct e with
  | Some ds =>
      dt ← published_datetime_of time_mktime datetime_fromtimestamp ds;
      Ok (if in_window start_date end_date (dt_date dt)
          then [article_record e dt] else [])
  | None => Ok []
  end.

(** The timestamp of [e] resolves: its date structure, if it has one,
    converts to a local datetime. *)
Definition resolves (e : entry) : Prop :=
  ∀ ds, date_struct e = Some ds →
    ∃ dt, published_datetime_of time_mktime datetime_fromtimestamp ds = Ok dt.

(** The record kept for [e], if [e] is kept. *)
Definition kept_record (start_date end_date : date) (e : entry)
  : option (gmap string pyval) :=
  match date_struct e with
  | Some ds =>
      match published_datetime_of time_mktime datetime_fromtimestamp ds with
      | Ok dt => if in_window start_date end_date (dt_date dt)
                 then Some (article_record e dt) else None
      | Raise _ => None
      end
  | None => None
  end.

End FilterView.

(** A field that is absent or holds a falsy value. *)
Definition absent_or_empty (field : option (option struct_time)) : Prop :=
  field = None ∨ field = Some None.

(** ** Vocabulary of the statements *)

(** The window of the specification's scenarios, and the filter in a zone one
    hour east of UTC. *)
Definition window_start : date := Date 2024 5 1.
Definition window_end : date := Date 2024 5 15.

Abbreviation filter_cet :=
  (filter_articles_by_date_range (mktime_fixed 3600) (fromtimestamp_fixed 3600)).

(** Entries of which the first and the third fall in the window. *)
Definition sample_entries : list entry :=
  [entry_published (noon 2024 5 2); blank_entry; entry_updated (noon 2024 5 3);
   entry_published (noon 2024 6 1)].

(** Three records, the last two with the same datetime. *)
Definition sample_articles : list (gmap string pyval) :=
  [article_record blank_entry (DateTime (Date 2024 5 1) 8 0 0 0);
   article_record (entry_published (noon 2024 5 3)) (DateTime (Date 2024 5 3) 12 0 0 0);
   article_record (entry_updated (noon 2024 5 3)) (DateTime (Date 2024 5 3) 12 0 0 0)].

(** The records are sorted newest first. *)
Definition newest_first (a b : gmap string pyval) : Prop :=
  ∃ ta tb, published_key a = Ok ta ∧ published_key b = Ok tb ∧
           datetime_ge ta tb = true.

(** No brace in [s]: no replacement field and nothing escaped. *)
Fixpoint brace_free (s : string) : bool :=
  match s with
  | EmptyString => true
  | String "{" _ | String "}" _ => false
  | String _ s' => brace_free s'
  end.

(** The fixed text of [prompt2] before and after its replacement field. *)
Definition prompt2_head : string :=
  "You are a helpful assistant that summarizes scientific articles. " +:+
  "Here are many summaries of a collection of articles.".

Definition prompt2_tail : string :=
  "In a few sentences and concise language, describe the major themes of these articles." +:+
  "Provide links to a few important articles in [[number]](url)] style." +:+
  "The links should be integrated into the text, not listed separately.".

(** The separator of line 152: three newlines, that is two blank lines. *)
Definition summaries_separator : string := newline +:+ newline +:+ newline.

(** The message of the [TypeError] of a call with one argument too many. *)
Definition arity_message : string :=
  "filter_articles_by_date_range() takes 3 positional arguments but 4 were given".

(** A feed whose fetch returns at least one entry. *)
Definition feed_has_entries (feedparser_parse : string → result parsed_feed)
    (feed : string * string) : Prop :=
  ∃ printed first others, get_articles_from_rss feedparser_parse (snd feed) =
    (printed, Ok (first :: others)).

(** The line printed when the key is not set. *)
Definition missing_key_warning : string :=
  "Warning: GOOGLE_API_KEY environment variable not set. Summarization will be skipped.".

(** The fixed text of [prompt] before and after its replacement field. *)
Definition prompt_head : string :=
  "You are a helpful assistant that summarizes scientific articles. " +:+
  "Here are the latest articles from a feed source:".

Definition prompt_tail : string :=
  "In a few sentences, answer the following questions:" +:+
  "What type of article is this?" +:+
  "What research area is this research about?" +:+
  "what is the most important message of this publication?" +:+
  "What applications does this research have?".

(** The line the script prints when no article was collected. *)
Definition no_articles_line : string :=
  "No new articles found in Nature or Science from the past week.".

(** The three lines the listing prints for a record of the filter. *)
Definition listing_lines (i : Z) (e : entry) (t : datetime) : list string :=
  [newline +:+ str_int i +:+ ". " +:+ default "No title" (title e);
   "   Source: " +:+ py_str (default (VStr "Unknown source") (source e)) +:+
     " (" +:+ strftime_ymd (dt_date t) +:+ ")";
   "   URL: " +:+ default "No link" (link e)]%string.

(** The lines of a whole listing that starts at number [i]. *)
Fixpoint listing_of (i : Z) (records : list (entry * datetime)) : list string :=
  match records with
  | [] => []
  | (e, t) :: rest => listing_lines i e t ++ listing_of (i + 1) rest
  end.

(** A mapping that names a source: it has both keys. *)
Definition names_source (item : gmap string string) : Prop :=
  is_Some (item !! "name"%string) ∧ is_Some (item !! "url"%string).


(** * Properties *)

(** ** Comparison of dates and datetimes *)

Lemma lex_compare_refl a : lex_compare a a = Eq.
Proof. induction a as [|x a IH]; simpl; [done|]. by rewrite Z.compare_refl. Qed.

Lemma lex_compare_eq a b :
  length a = length b → lex_compare a b = Eq → a = b.
Proof.
  revert b. induction a as [|x a IH]; intros [|y b] Hlen; simpl; try done.
  destruct (Z.compare_spec x y) as [->| |]; try done.
  intros H. f_equal. apply IH; [by injection Hlen|done].
Qed.

Lemma lex_compare_antisym a b : lex_compare b a = CompOpp (lex_compare a b).
Proof.
  revert b. induction a as [|x a IH]; intros [|y b]; simpl; try done.
  rewrite (Z.compare_antisym x y).
  destruct (x ?= y); simpl; [apply IH|done|done].
Qed.

Lemma lex_compare_lt_trans a b c :
  lex_compare a b = Lt → lex_compare b c = Lt → lex_compare a c = Lt.
Proof.
  revert b c. induction a as [|x a IH]; intros [|y b] [|z c]; simpl; try done.
  destruct (Z.compare_spec x y) as [->| |]; try done.
  - destruct (Z.compare_spec y z) as [->| |]; try done. apply IH.
  - destruct (Z.compare_spec y z) as [->| |]; try done.
    + intros _ _. destruct (Z.compare_spec x z); [lia|done|lia].
    + intros _ _. destruct (Z.compare_spec x z); [lia|done|lia].
Qed.

Lemma lex_compare_eq_lt a b c :
  lex_compare a b = Eq → lex_compare b c = Lt → lex_compare a c = Lt.
Proof.
  revert b c. induction a as [|x a IH]; intros [|y b] [|z c]; simpl; try done.
  destruct (Z.compare_spec x y) as [->| |]; try done.
  destruct (Z.compare_spec y z) as [->| |]; try done. apply IH.
Qed.

Lemma datetime_tuple_length t : length (datetime_tuple t) = 7%nat.
Proof. done. Qed.

Lemma datetime_tuple_inj a b : datetime_tuple a = datetime_tuple b → a = b.
Proof.
  destruct a as [[] ? ? ? ?], b as [[] ? ? ? ?]; cbn. intros [= -> -> -> -> -> -> ->]. done.
Qed.

Lemma datetime_compare_eq a b : datetime_compare a b = Eq ↔ a = b.
Proof.
  split.
  - intros H. apply datetime_tuple_inj, lex_compare_eq; [|done].
    by rewrite !datetime_tuple_length.
  - intros ->. apply lex_compare_refl.
Qed.

Lemma date_le_spec a b :
  date_le a b = true ↔
  year a < year b ∨
  (year a = year b ∧ (month a < month b ∨ (month a = month b ∧ day a ≤ day b))).
Proof.
  unfold date_le, date_compare, date_tuple; simpl.
  destruct (Z.compare_spec (year a) (year b));
    destruct (Z.compare_spec (month a) (month b));
    destruct (Z.compare_spec (day a) (day b)); split; intros; try done; lia.
Qed.

Lemma in_window_spec s d x :
  in_window s d x = true ↔ date_le s x = true ∧ date_le x d = true.
Proof. unfold in_window. apply andb_true_iff. Qed.

(** ** The filter, entry by entry *)

Section FilterFacts.

Variable time_mktime : struct_time → result Z.
Variable datetime_fromtimestamp : Z → result datetime.

Abbreviation filter_range :=
  (filter_articles_by_date_range time_mktime datetime_fromtimestamp).
Abbreviation local_datetime :=
  (published_datetime_of time_mktime datetime_fromtimestamp).
Abbreviation contribution := (entry_articles time_mktime datetime_fromtimestamp).
Abbreviation kept := (kept_record time_mktime datetime_fromtimestamp).
Abbreviation loop := (filter_loop time_mktime datetime_fromtimestamp).

Lemma filter_loop_step e rest s d acc :
  loop (e :: rest) s d acc =
  (c ← contribution s d e; loop rest s d (acc ++ c)).
Proof.
  simpl. unfold entry_articles.
  destruct (date_struct e) as [ds|]; simpl; [|by rewrite app_nil_r].
  destruct (local_datetime ds) as [dt|err]; simpl; [|done].
  destruct (in_window s d (dt_date dt)); [done|by rewrite app_nil_r].
Qed.

Lemma filter_loop_acc l s d acc :
  loop l s d acc = (out ← loop l s d []; Ok (acc ++ out)).
Proof.
  revert acc. induction l as [|e rest IH]; intros acc.
  - simpl. by rewrite app_nil_r.
  - rewrite !filter_loop_step.
    destruct (contribution s d e) as [c|err]; simpl; [|done].
    rewrite (IH (acc ++ c)), (IH c).
    destruct (loop rest s d []) as [out|err]; simpl; [|done].
    by rewrite app_assoc.
Qed.

Lemma filter_range_cons e rest s d :
  filter_range (e :: rest) s d =
  (c ← contribution s d e; out ← filter_range rest s d; Ok (c ++ out)).
Proof.
  unfold filter_articles_by_date_range. rewrite filter_loop_step.
  destruct (contribution s d e) as [c|err]; simpl; [|done].
  apply filter_loop_acc.
Qed.

Lemma filter_range_app l1 l2 s d :
  filter_range (l1 ++ l2) s d =
  (o1 ← filter_range l1 s d; o2 ← filter_range l2 s d; Ok (o1 ++ o2)).
Proof.
  induction l1 as [|e l1 IH].
  - simpl. destruct (filter_range l2 s d); done.
  - rewrite <- app_comm_cons, !filter_range_cons.
    destruct (contribution s d e) as [c|err]; simpl; [|done].
    rewrite IH.
    destruct (filter_range l1 s d) as [o1|err]; simpl; [|done].
    destruct (filter_range l2 s d) as [o2|err]; simpl; [|done].
    by rewrite app_assoc.
Qed.

Lemma contribution_kept s d e :
  resolves time_mktime datetime_fromtimestamp e →
  contribution s d e = Ok (option_list (kept s d e)).
Proof.
  unfold resolves, entry_articles, kept_record. intros Hres.
  destruct (date_struct e) as [ds|]; [|done].
  destruct (Hres ds eq_refl) as [dt ->]. simpl.
  by destruct (in_window s d (dt_date dt)).
Qed.

Lemma contribution_ok_kept s d e c :
  contribution s d e = Ok c → c = option_list (kept s d e).
Proof.
  unfold entry_articles, kept_record.
  destruct (date_struct e) as [ds|]; [|by intros [= <-]].
  destruct (local_datetime ds) as [dt|err]; simpl; [|done].
  intros [= <-]. by destruct (in_window s d (dt_date dt)).
Qed.

(** The filter returns when every timestamp resolves, and then its result
    is the kept records, in the order of the entries. *)
Lemma filter_returns l s d :
  Forall (resolves time_mktime datetime_fromtimestamp) l →
  filter_range l s d = Ok (omap (kept s d) l).
Proof.
  induction 1 as [|e l He _ IH]; [done|].
  rewrite filter_range_cons, (contribution_kept _ _ _ He). simpl. rewrite IH. simpl.
  by destruct (kept s d e).
Qed.

Lemma filter_ok_omap l s d out :
  filter_range l s d = Ok out → out = omap (kept s d) l.
Proof.
  revert out. induction l as [|e l IH]; intros out.
  - by intros [= <-].
  - rewrite filter_range_cons.
    destruct (contribution s d e) as [c|err] eqn:Hc; simpl; [|done].
    destruct (filter_range l s d) as [o|err]; simpl; [|done].
    intros [= <-]. rewrite (IH o eq_refl), (contribution_ok_kept _ _ _ _ Hc).
    by destruct (kept s d e).
Qed.

Lemma kept_record_inv s d e r :
  kept s d e = Some r →
  ∃ ds dt, date_struct e = Some ds ∧ local_datetime ds = Ok dt ∧
           in_window s d (dt_date dt) = true ∧ r = article_record e dt.
Proof.
  unfold kept_record.
  destruct (date_struct e) as [ds|]; [|done].
  destruct (local_datetime ds) as [dt|err] eqn:Hdt; [|done].
  destruct (in_window s d (dt_date dt)) eqn:Hw; [|done].
  intros [= <-]. by exists ds, dt.
Qed.

Lemma filter_elem_of l s d out r :
  filter_range l s d = Ok out → r ∈ out →
  ∃ e ds dt, e ∈ l ∧ date_struct e = Some ds ∧ local_datetime ds = Ok dt ∧
             in_window s d (dt_date dt) = true ∧ r = article_record e dt.
Proof.
  intros Hout Hr. rewrite (filter_ok_omap _ _ _ _ Hout) in Hr.
  apply list_elem_of_omap in Hr as (e & He & Hk).
  destruct (kept_record_inv _ _ _ _ Hk) as (ds & dt & ?). by exists e, ds, dt.
Qed.

End FilterFacts.

(** ** The date window, the fallback, the records and their order *)

(** Reads a key of [article_record] once the entry's field is known. *)
Ltac record_field :=
  intros; unfold article_record;
  match goal with H : _ = _ |- _ => rewrite H end; reflexivity.

Section FilterTheorems.

Variable time_mktime : struct_time → result Z.
Variable datetime_fromtimestamp : Z → result datetime.


(** C3.  The date structure of an entry is [published_parsed] when that
    field is present and not empty; [updated_parsed] is only used when
    [published_parsed] is absent or empty; and an entry where neither
    field yields a value has no date structure, is left out of the result,
    and raises nothing: the filter behaves as if the entry were not in the
    list. *)
Theorem date_struct_fallback e :
  (∀ t, published_parsed e = Some (Some t) → date_struct e = Some t) ∧
  (absent_or_empty (published_parsed e) →
     ∀ t, updated_parsed e = Some (Some t) → date_struct e = Some t) ∧
  (absent_or_empty (published_parsed e) →
   absent_or_empty (updated_parsed e) →
     date_struct e = None ∧
     (∀ start_date end_date,
        filter_articles_by_date_range time_mktime datetime_fromtimestamp
          [e] start_date end_date = Ok []) ∧
     (∀ before after start_date end_date,
        filter_articles_by_date_range time_mktime datetime_fromtimestamp
          (before ++ e :: after) start_date end_date =
        filter_articles_by_date_range time_mktime datetime_fromtimestamp
          (before ++ after) start_date end_date)).
Proof.
  unfold date_struct, absent_or_empty. repeat split.
  - intros t ->. done.
  - intros [-> | ->] t ->; done.
  - destruct H as [-> | ->], H0 as [-> | ->]; done.
  - intros s d. unfold filter_articles_by_date_range. simpl. unfold date_struct.
    destruct H as [-> | ->], H0 as [-> | ->]; done.
  - intros before after s d. rewrite !filter_range_app, filter_range_cons.
    unfold entry_articles, date_struct.
    destruct H as [-> | ->], H0 as [-> | ->]; simpl;
      destruct (filter_articles_by_date_range _ _ before s d); simpl; try done;
      destruct (filter_articles_by_date_range _ _ after s d); done.
Qed.

(** C4.  An entry that passes the date check is appended as a record that
    carries its fields: the title, link and source of the entry when it has
    them, and the sentinels 'No title', 'No link' and 'Unknown source' when
    it lacks them. *)
Theorem filter_record_sentinels before e after start_date end_date out ds dt :
  filter_articles_by_date_range time_mktime datetime_fromtimestamp
    (before ++ e :: after) start_date end_date = Ok out →
  date_struct e = Some ds →
  published_datetime_of time_mktime datetime_fromtimestamp ds = Ok dt →
  in_window start_date end_date (dt_date dt) = true →
  ∃ out1 out2 r,
    filter_articles_by_date_range time_mktime datetime_fromtimestamp
      before start_date end_date = Ok out1 ∧
    filter_articles_by_date_range time_mktime datetime_fromtimestamp
      after start_date end_date = Ok out2 ∧
    out = out1 ++ r :: out2 ∧
    r !! "published_datetime"%string = Some (VDateTime dt) ∧
    (title e = None → r !! "title"%string = Some (VStr "No title")) ∧
    (∀ x, title e = Some x → r !! "title"%string = Some (VStr x)) ∧
    (link e = None → r !! "url"%string = Some (VStr "No link")) ∧
    (∀ x, link e = Some x → r !! "url"%string = Some (VStr x)) ∧
    (source e = None → r !! "source"%string = Some (VStr "Unknown source")) ∧
    (∀ v, source e = Some v → r !! "source"%string = Some v).
Proof.
  intros Hout Hds Hdt Hw.
  rewrite filter_range_app, filter_range_cons in Hout.
  destruct (filter_articles_by_date_range _ _ before start_date end_date)
    as [out1|] eqn:H1; [|done].
  simpl in Hout. unfold entry_articles in Hout. rewrite Hds, Hdt in Hout.
  simpl in Hout. rewrite Hw in Hout.
  destruct (filter_articles_by_date_range _ _ after start_date end_date)
    as [out2|] eqn:H2; [|done].
  simpl in Hout. injection Hout as <-.
  exists out1, out2, (article_record e dt).
  repeat split; try done; record_field.
Qed.

Lemma omap_survivors {A B} (f : A → option B) (l : list A) :
  Forall2 (λ x y, f x = Some y) (filter (λ x, is_Some (f x)) l) (omap f l).
Proof.
  induction l as [|x l IH]; simpl; [constructor|].
  rewrite filter_cons. destruct (f x) as [y|] eqn:Hx.
  - rewrite decide_True by eauto. by constructor.
  - rewrite decide_False; [done|]. by intros [].
Qed.

(** C8.  The filter returns whenever the timestamps resolve, and what it
    returns lists the surviving entries in the order of the input: the
    survivors are a subsequence of the input, and the result holds their
    records, one for one, in that order. *)
Theorem filter_preserves_order articles start_date end_date :
  (Forall (resolves time_mktime datetime_fromtimestamp) articles →
     ∃ out,
       filter_articles_by_date_range time_mktime datetime_fromtimestamp
         articles start_date end_date = Ok out) ∧
  (∀ out,
     filter_articles_by_date_range time_mktime datetime_fromtimestamp
       articles start_date end_date = Ok out →
     let survivors :=
       filter (λ e, is_Some (kept_record time_mktime datetime_fromtimestamp
                               start_date end_date e)) articles in
     sublist survivors articles ∧
     Forall2 (λ e r, kept_record time_mktime datetime_fromtimestamp
                       start_date end_date e = Some r)
       survivors out).
Proof.
  split.
  - intros Hall. eexists. by apply filter_returns.
  - intros out Hout. simpl. split; [apply sublist_filter|].
    rewrite (filter_ok_omap _ _ _ _ _ _ Hout). apply omap_survivors.
Qed.

(** C10.  Every record of the result has exactly the seven keys title,
    url, published_datetime, source, summary, content and keywords; it is
    the record of an entry of the input, with 'No summary' for a missing
    summary, the empty list for missing content and for missing tags, and
    the entry's tags value as it is under keywords. *)
Theorem filter_record_shape articles start_date end_date out r :
  filter_articles_by_date_range time_mktime datetime_fromtimestamp
    articles start_date end_date = Ok out →
  r ∈ out →
  dom r = ({[ "title"; "url"; "published_datetime"; "source"; "summary";
              "content"; "keywords" ]} : gset string)%string ∧
  ∃ e dt, e ∈ articles ∧ r = article_record e dt ∧
    (summary e = None → r !! "summary"%string = Some (VStr "No summary")) ∧
    (∀ x, summary e = Some x → r !! "summary"%string = Some (VStr x)) ∧
    (content e = None → r !! "content"%string = Some (VList [])) ∧
    (∀ v, content e = Some v → r !! "content"%string = Some v) ∧
    (tags e = None → r !! "keywords"%string = Some (VList [])) ∧
    (∀ v, tags e = Some v → r !! "keywords"%string = Some v).
Proof.
  intros Hout Hr.
  destruct (filter_elem_of _ _ _ _ _ _ _ Hout Hr) as (e & ds & dt & He & _ & _ & _ & ->).
  split.
  - unfold article_record. rewrite dom_list_to_map_L. simpl. set_solver.
  - exists e, dt. repeat split; try done; record_field.
Qed.

End FilterTheorems.

(** ** The filter on concrete entries, in a zone one hour east of UTC *)


Lemma resolves_fixed utcoffset e :
  match date_struct e with
  | Some ds =>
      match published_datetime_of (mktime_fixed utcoffset)
              (fromtimestamp_fixed utcoffset) ds with
      | Ok _ => True
      | Raise _ => False
      end
  | None => True
  end →
  resolves (mktime_fixed utcoffset) (fromtimestamp_fixed utcoffset) e.
Proof.
  intros H ds Hds. rewrite Hds in H.
  destruct (published_datetime_of _ _ ds) as [dt|]; [by exists dt|done].
Defined.

(** The scenarios of the specification: an entry published on 2024-05-10 is
    kept, an entry only updated on 2024-05-10 is kept, an entry published on
    2024-04-30 is dropped. *)
Example scenario_published :
  filter_cet [entry_published (noon 2024 5 10)] window_start window_end =
  Ok [article_record (entry_published (noon 2024 5 10))
        (DateTime (Date 2024 5 10) 12 0 0 0)].
Proof. reflexivity. Qed.

Example scenario_updated :
  filter_cet [entry_updated (noon 2024 5 10)] window_start window_end =
  Ok [article_record (entry_updated (noon 2024 5 10))
        (DateTime (Date 2024 5 10) 12 0 0 0)].
Proof. reflexivity. Qed.

Example scenario_before_window :
  filter_cet [entry_published (noon 2024 4 30)] window_start window_end = Ok [].
Proof. reflexivity. Qed.


Lemma date_struct_fallback_witness :
  date_struct (entry_updated (noon 2024 5 10)) = Some (noon 2024 5 10) ∧
  filter_cet [blank_entry] window_start window_end = Ok [].
Proof.
  split.
  - apply (date_struct_fallback (mktime_fixed 3600) (fromtimestamp_fixed 3600)
             (entry_updated (noon 2024 5 10))).
    + right. reflexivity.
    + reflexivity.
  - apply (date_struct_fallback (mktime_fixed 3600) (fromtimestamp_fixed 3600)
             blank_entry); left; reflexivity.
Defined.

Lemma filter_record_sentinels_witness :
  ∃ out1 out2 r,
    filter_cet [blank_entry] window_start window_end = Ok out1 ∧
    filter_cet [] window_start window_end = Ok out2 ∧
    [article_record (entry_updated (noon 2024 5 10))
       (DateTime (Date 2024 5 10) 12 0 0 0)] = out1 ++ r :: out2 ∧
    r !! "published_datetime"%string =
      Some (VDateTime (DateTime (Date 2024 5 10) 12 0 0 0)) ∧
    (title (entry_updated (noon 2024 5 10)) = None →
       r !! "title"%string = Some (VStr "No title")) ∧
    (∀ x, title (entry_updated (noon 2024 5 10)) = Some x →
       r !! "title"%string = Some (VStr x)) ∧
    (link (entry_updated (noon 2024 5 10)) = None →
       r !! "url"%string = Some (VStr "No link")) ∧
    (∀ x, link (entry_updated (noon 2024 5 10)) = Some x →
       r !! "url"%string = Some (VStr x)) ∧
    (source (entry_updated (noon 2024 5 10)) = None →
       r !! "source"%string = Some (VStr "Unknown source")) ∧
    (∀ v, source (entry_updated (noon 2024 5 10)) = Some v →
       r !! "source"%string = Some v).
Proof.
  apply (filter_record_sentinels (mktime_fixed 3600) (fromtimestamp_fixed 3600)
           [blank_entry] (entry_updated (noon 2024 5 10)) []
           window_start window_end _ (noon 2024 5 10)
           (DateTime (Date 2024 5 10) 12 0 0 0)); reflexivity.
Defined.


Lemma filter_preserves_order_witness :
  (∃ out, filter_cet sample_entries window_start window_end = Ok out) ∧
  let survivors :=
    filter (λ e, is_Some (kept_record (mktime_fixed 3600) (fromtimestamp_fixed 3600)
                            window_start window_end e)) sample_entries in
  sublist survivors sample_entries ∧
  Forall2 (λ e r, kept_record (mktime_fixed 3600) (fromtimestamp_fixed 3600)
                    window_start window_end e = Some r)
    survivors
    [article_record (entry_published (noon 2024 5 2)) (DateTime (Date 2024 5 2) 12 0 0 0);
     article_record (entry_updated (noon 2024 5 3)) (DateTime (Date 2024 5 3) 12 0 0 0)].
Proof.
  destruct (filter_preserves_order (mktime_fixed 3600) (fromtimestamp_fixed 3600)
              sample_entries window_start window_end) as [Hreturns Horder].
  split.
  - apply Hreturns. repeat constructor; apply resolves_fixed; exact I.
  - apply Horder. reflexivity.
Defined.

Lemma filter_record_shape_witness :
  dom (article_record (entry_published (noon 2024 5 10))
         (DateTime (Date 2024 5 10) 12 0 0 0)) =
  ({[ "title"; "url"; "published_datetime"; "source"; "summary";
      "content"; "keywords" ]} : gset string)%string.
Proof.
  apply (filter_record_shape (mktime_fixed 3600) (fromtimestamp_fixed 3600)
           [entry_published (noon 2024 5 10)] window_start window_end
           [article_record (entry_published (noon 2024 5 10))
              (DateTime (Date 2024 5 10) 12 0 0 0)]).
  - reflexivity.
  - apply list_elem_of_here.
Defined.

(** ** The stable sort *)

Section SortFacts.
Context {K A : Type} `{EqDecision K}.
Variable lt : K → K → bool.

(** [lt] is a strict order in which being incomparable is transitive, as
    [<] is on integers, strings, tuples of them, and datetimes. *)
Hypothesis lt_irrefl : ∀ x, lt x x = false.
Hypothesis lt_trans : ∀ x y z, lt x y = true → lt y z = true → lt x z = true.
Hypothesis lt_cotrans : ∀ x y z, lt x y = true → lt x z = true ∨ lt z y = true.


Lemma lt_asym x y : lt x y = true → lt y x = false.
Proof.
  intros Hxy. destruct (lt y x) eqn:Hyx; [|done].
  by rewrite <- (lt_irrefl x), <- (lt_trans x y x Hxy Hyx).
Qed.

Lemma insert_sorted_perm (x : K * A) (l : list (K * A)) : insert_sorted lt x l ≡ₚ x :: l.
Proof.
  induction l as [|y l IH]; simpl; [done|].
  destruct (lt (fst x) (fst y)); [done|].
  rewrite IH. apply Permutation_swap.
Qed.

Lemma insert_sorted_Forall (P : K * A → Prop) (x : K * A) (l : list (K * A)) :
  P x → Forall P l → Forall P (insert_sorted lt x l).
Proof.
  intros Hx Hl. apply Forall_forall. intros z Hz.
  rewrite insert_sorted_perm in Hz.
  apply elem_of_cons in Hz as [-> | Hz]; [done|].
  by eapply Forall_forall in Hl.
Qed.

Lemma insert_sorted_sorted (x : K * A) (l : list (K * A)) :
  StronglySorted (key_le lt) l → StronglySorted (key_le lt) (insert_sorted lt x l).
Proof.
  induction 1 as [|y l Hl IH Hy]; simpl; [repeat constructor|].
  destruct (lt (fst x) (fst y)) eqn:Hxy.
  - constructor; [by constructor|].
    constructor; [by apply lt_asym|].
    eapply Forall_impl; [exact Hy|]. intros z Hz. unfold key_le in *.
    destruct (lt (fst z) (fst x)) eqn:Hzx; [|done].
    by rewrite <- Hz, (lt_trans _ _ _ Hzx Hxy).
  - constructor; [done|]. by apply insert_sorted_Forall.
Qed.

Lemma insert_sorted_filter k (x : K * A) (l : list (K * A)) :
  StronglySorted (key_le lt) l →
  filter (has_key k) (insert_sorted lt x l) =
  filter (has_key k) l ++ filter (has_key k) [x].
Proof.
  induction 1 as [|y l Hl IH Hy]; simpl; [done|].
  destruct (lt (fst x) (fst y)) eqn:Hxy.
  - destruct (decide (has_key k x)) as [Hk|Hk].
    + assert (Hnone : Forall (λ z, ¬ has_key k z) (y :: l)).
      { constructor.
        - unfold has_key in *. intros Hy'. rewrite <- Hk in Hy'.
          rewrite Hy', lt_irrefl in Hxy. done.
        - eapply Forall_impl; [exact Hy|]. intros z Hz Hz'.
          unfold has_key, key_le in *. rewrite <- Hk in Hz'.
          destruct (lt_cotrans _ _ (fst z) Hxy) as [H1|H1].
          + by rewrite Hz', lt_irrefl in H1.
          + by rewrite H1 in Hz. }
      rewrite (filter_cons_True _ x) by done.
      assert (Hnil : filter (has_key k) (y :: l) = []).
      { clear -Hnone. induction Hnone as [|z l' Hz _ IH']; [done|].
        by rewrite filter_cons_False. }
      rewrite Hnil. by rewrite filter_cons_True.
    + rewrite (filter_cons_False _ x) by done.
      rewrite (filter_cons_False _ x []) by done. by rewrite app_nil_r.
  - rewrite !(filter_cons _ y), IH. by destruct (decide (has_key k y)).
Qed.

Lemma fold_insert_sorted (l acc : list (K * A)) :
  StronglySorted (key_le lt) acc →
  StronglySorted (key_le lt) (fold_left (λ sorted x, insert_sorted lt x sorted) l acc).
Proof.
  revert acc. induction l as [|x l IH]; intros acc Hacc; simpl; [done|].
  by apply IH, insert_sorted_sorted.
Qed.

Lemma fold_insert_perm (l acc : list (K * A)) :
  fold_left (λ sorted x, insert_sorted lt x sorted) l acc ≡ₚ acc ++ l.
Proof.
  revert acc. induction l as [|x l IH]; intros acc; simpl.
  - by rewrite app_nil_r.
  - rewrite IH, insert_sorted_perm. simpl. apply Permutation_middle.
Qed.

Lemma fold_insert_filter k (l acc : list (K * A)) :
  StronglySorted (key_le lt) acc →
  filter (has_key k) (fold_left (λ sorted x, insert_sorted lt x sorted) l acc) =
  filter (has_key k) acc ++ filter (has_key k) l.
Proof.
  revert acc. induction l as [|x l IH]; intros acc Hacc; simpl.
  - by rewrite app_nil_r.
  - rewrite IH by by apply insert_sorted_sorted.
    rewrite insert_sorted_filter by done.
    rewrite <- app_assoc. f_equal.
    rewrite (filter_cons _ x l), (filter_cons _ x []).
    by destruct (decide (has_key k x)).
Qed.

Lemma stable_sort_sorted (l : list (K * A)) : StronglySorted (key_le lt) (stable_sort lt l).
Proof. apply fold_insert_sorted. constructor. Qed.

Lemma stable_sort_perm (l : list (K * A)) : stable_sort lt l ≡ₚ l.
Proof. unfold stable_sort. by rewrite fold_insert_perm. Qed.

Lemma stable_sort_filter k (l : list (K * A)) :
  filter (has_key k) (stable_sort lt l) = filter (has_key k) l.
Proof. unfold stable_sort. rewrite fold_insert_filter; [done|constructor]. Qed.

Lemma StronglySorted_reverse (R : relation (K * A)) l :
  StronglySorted R l → StronglySorted (flip R) (reverse l).
Proof.
  induction 1 as [|x l Hl IH Hx]; [constructor|].
  rewrite reverse_cons. apply StronglySorted_app. repeat split.
  - intros a b Ha Hb. apply list_elem_of_singleton in Hb as ->.
    rewrite elem_of_reverse in Ha. unfold flip. rewrite Forall_forall in Hx. by apply Hx.
  - done.
  - repeat constructor.
Qed.

(** With [reverse=True] the result is descending, still a permutation, and
    still keeps elements of equal key in their original order. *)
Lemma sort_decorated_descending (l : list (K * A)) :
  StronglySorted (flip (key_le lt)) (sort_decorated lt true l).
Proof. apply StronglySorted_reverse, stable_sort_sorted. Qed.

Lemma sort_decorated_perm (l : list (K * A)) : sort_decorated lt true l ≡ₚ l.
Proof.
  unfold sort_decorated. by rewrite reverse_Permutation, stable_sort_perm,
    reverse_Permutation.
Qed.

Lemma sort_decorated_stable k (l : list (K * A)) :
  filter (has_key k) (sort_decorated lt true l) = filter (has_key k) l.
Proof.
  unfold sort_decorated.
  by rewrite filter_reverse, stable_sort_filter, filter_reverse, reverse_involutive.
Qed.

(** Two lists in descending order that agree on the elements of every key
    are equal: the result of a stable descending sort does not depend on the
    algorithm. *)
Hypothesis lt_total : ∀ x y, lt x y = false → lt y x = false → x = y.

Lemma filter_has_key_head k (x : K * A) (l : list (K * A)) :
  fst x = k → filter (has_key k) (x :: l) = x :: filter (has_key k) l.
Proof. intros Hk. by rewrite filter_cons_True. Qed.

Lemma descending_head_key (x y : K * A) (l1 l2 : list (K * A)) :
  StronglySorted (flip (key_le lt)) (x :: l1) →
  StronglySorted (flip (key_le lt)) (y :: l2) →
  (∀ k, filter (has_key k) (x :: l1) = filter (has_key k) (y :: l2)) →
  fst x = fst y.
Proof.
  intros H1 H2 Hf.
  apply StronglySorted_inv in H1 as [_ Hx], H2 as [_ Hy].
  rewrite Forall_forall in Hx, Hy.
  assert (Hxin : x ∈ y :: l2).
  { eapply (list_elem_of_filter (has_key (fst x))). rewrite <- Hf.
    rewrite filter_has_key_head by done. left. }
  assert (Hyin : y ∈ x :: l1).
  { eapply (list_elem_of_filter (has_key (fst y))). rewrite Hf.
    rewrite filter_has_key_head by done. left. }
  apply elem_of_cons in Hxin as [->|Hxin]; [done|].
  apply elem_of_cons in Hyin as [->|Hyin]; [done|].
  apply lt_total; [apply (Hx y Hyin)|apply (Hy x Hxin)].
Qed.

Lemma descending_stable_unique (l1 l2 : list (K * A)) :
  StronglySorted (flip (key_le lt)) l1 →
  StronglySorted (flip (key_le lt)) l2 →
  (∀ k, filter (has_key k) l1 = filter (has_key k) l2) →
  l1 = l2.
Proof.
  revert l2. induction l1 as [|x l1 IH]; intros [|y l2] H1 H2 Hf.
  - done.
  - specialize (Hf (fst y)). by rewrite filter_has_key_head in Hf.
  - specialize (Hf (fst x)). by rewrite filter_has_key_head in Hf.
  - pose proof (descending_head_key _ _ _ _ H1 H2 Hf) as Hkey.
    pose proof (Hf (fst x)) as Hhead.
    rewrite !filter_has_key_head in Hhead by done. injection Hhead as -> Htail.
    f_equal. apply IH.
    + by apply StronglySorted_inv in H1 as [? _].
    + by apply StronglySorted_inv in H2 as [? _].
    + intros k. destruct (decide (fst y = k)) as [Hk|Hk].
      * by rewrite <- Hk.
      * specialize (Hf k). by rewrite !filter_cons_False in Hf.
Qed.

Lemma sort_decorated_unique (l out : list (K * A)) :
  StronglySorted (flip (key_le lt)) out →
  (∀ k, filter (has_key k) out = filter (has_key k) l) →
  out = sort_decorated lt true l.
Proof.
  intros Hsorted Hstable. apply descending_stable_unique; [done| |].
  - apply sort_decorated_descending.
  - intros k. by rewrite sort_decorated_stable.
Qed.

End SortFacts.

(** ** The sort of the report *)

Lemma datetime_lt_irrefl t : datetime_lt t t = false.
Proof. unfold datetime_lt, datetime_compare. by rewrite lex_compare_refl. Qed.

Lemma datetime_lt_trans a b c :
  datetime_lt a b = true → datetime_lt b c = true → datetime_lt a c = true.
Proof.
  unfold datetime_lt, datetime_compare.
  destruct (lex_compare (datetime_tuple a) (datetime_tuple b)) eqn:Hab; try done.
  destruct (lex_compare (datetime_tuple b) (datetime_tuple c)) eqn:Hbc; try done.
  by rewrite (lex_compare_lt_trans _ _ _ Hab Hbc).
Qed.

Lemma datetime_lt_cotrans a b c :
  datetime_lt a b = true → datetime_lt a c = true ∨ datetime_lt c b = true.
Proof.
  unfold datetime_lt, datetime_compare.
  destruct (lex_compare (datetime_tuple a) (datetime_tuple b)) eqn:Hab; try done.
  intros _.
  destruct (lex_compare (datetime_tuple a) (datetime_tuple c)) eqn:Hac; [|by left|];
    right; pose proof (lex_compare_antisym (datetime_tuple a) (datetime_tuple c)) as Hca;
    rewrite Hac in Hca; cbn [CompOpp] in Hca.
  - by rewrite (lex_compare_eq_lt _ _ _ Hca Hab).
  - by rewrite (lex_compare_lt_trans _ _ _ Hca Hab).
Qed.


Lemma decorate_ok l ks :
  decorate l = Ok ks →
  map snd ks = l ∧ Forall (λ p, published_key (snd p) = Ok (fst p)) ks.
Proof.
  revert ks. induction l as [|x l IH]; intros ks; simpl.
  - intros [= <-]. by split.
  - destruct (published_key x) as [k|] eqn:Hk; simpl; [|done].
    destruct (decorate l) as [ks'|]; simpl; [|done].
    intros [= <-]. destruct (IH ks' eq_refl) as [Hmap Hall].
    split; simpl; [by rewrite Hmap|by constructor].
Qed.

Lemma decorate_returns l :
  Forall (λ x, ∃ t, published_key x = Ok t) l → ∃ ks, decorate l = Ok ks.
Proof.
  induction 1 as [|x l [t Ht] _ [ks Hks]]; simpl; [by eexists|].
  rewrite Ht, Hks. simpl. by eexists.
Qed.

Lemma filter_decorated t (ks : list (datetime * gmap string pyval)) :
  Forall (λ p, published_key (snd p) = Ok (fst p)) ks →
  filter (λ x, published_key x = Ok t) (map snd ks) =
  map snd (filter (has_key t) ks).
Proof.
  induction 1 as [|p ks Hp _ IH]; [done|]. simpl.
  rewrite !filter_cons, IH.
  destruct (decide (published_key (snd p) = Ok t)) as [Hd|Hd];
    destruct (decide (has_key t p)) as [Hf|Hf]; unfold has_key in Hf; try done.
  - rewrite Hp in Hd. by injection Hd.
  - rewrite Hp, Hf in Hd. done.
Qed.

Lemma StronglySorted_before {X} (R : relation X) (l : list X) i j a b :
  StronglySorted R l → (i < j)%nat → l !! i = Some a → l !! j = Some b → R a b.
Proof.
  intros Hl. revert i j. induction Hl as [|x l Hl IH Hx]; intros i j Hij Hi Hj.
  - done.
  - destruct j as [|j]; [lia|]. simpl in Hj. destruct i as [|i]; simpl in Hi.
    + injection Hi as ->. rewrite Forall_forall in Hx.
      apply Hx. by eapply list_elem_of_lookup_2.
    + apply (IH i j); [lia|done|done].
Qed.

Lemma newest_first_undecorate (l : list (datetime * gmap string pyval)) :
  Forall (λ p, published_key (snd p) = Ok (fst p)) l →
  StronglySorted (flip (key_le datetime_lt)) l →
  StronglySorted newest_first (map snd l).
Proof.
  intros Hall Hs. induction Hs as [|p l Hl IH Hp]; [constructor|].
  apply Forall_cons in Hall as [Hp' Hl']. simpl. constructor; [by apply IH|].
  apply Forall_fmap. rewrite Forall_forall in Hp, Hl'. apply Forall_forall.
  intros q Hq. exists (fst p), (fst q). repeat split; [done|by apply Hl'|].
  specialize (Hp q Hq). unfold flip, key_le in Hp. unfold datetime_ge.
  by rewrite Hp.
Qed.

(** C6.  On records that all carry a publication datetime, the sort of the
    report returns a rearrangement of its input that is descending by
    publication datetime: every record is at least as recent as every record
    after it.  The sort is stable: the records of any one datetime come out
    in the order they went in. *)
Theorem sort_articles_descending_stable all_new_articles :
  Forall (λ x, ∃ t, published_key x = Ok t) all_new_articles →
  ∃ sorted,
    sort_articles all_new_articles = Ok sorted ∧
    sorted ≡ₚ all_new_articles ∧
    StronglySorted newest_first sorted ∧
    (∀ i j a b, (i < j)%nat → sorted !! i = Some a → sorted !! j = Some b →
       newest_first a b) ∧
    (∀ t, filter (λ x, published_key x = Ok t) sorted =
          filter (λ x, published_key x = Ok t) all_new_articles).
Proof.
  intros Hkeys. destruct (decorate_returns _ Hkeys) as [ks Hks].
  destruct (decorate_ok _ _ Hks) as [Hmap Hall].
  pose proof (sort_decorated_perm (A:=gmap string pyval) datetime_lt ks) as Hperm.
  assert (Hall' : Forall (λ p, published_key (snd p) = Ok (fst p))
                    (sort_decorated datetime_lt true ks)).
  { apply Forall_forall. intros p Hp. rewrite Hperm in Hp.
    rewrite Forall_forall in Hall. by apply Hall. }
  assert (Hsorted : StronglySorted newest_first
                      (map snd (sort_decorated datetime_lt true ks))).
  { apply newest_first_undecorate; [done|].
    apply sort_decorated_descending;
      [exact datetime_lt_irrefl | exact datetime_lt_trans]. }
  exists (map snd (sort_decorated datetime_lt true ks)).
  unfold sort_articles. rewrite Hks. cbn [mbind result_mbind result_bind].
  repeat split.
  - rewrite <- Hmap. by apply fmap_Permutation.
  - done.
  - intros i j a b. by apply StronglySorted_before.
  - intros t. rewrite filter_decorated by done.
    rewrite (sort_decorated_stable datetime_lt datetime_lt_irrefl datetime_lt_trans
               datetime_lt_cotrans).
    rewrite <- filter_decorated by done. by rewrite Hmap.
Qed.

(** What the filter returns can be sorted: every record carries a datetime. *)
Lemma filter_output_sortable time_mktime datetime_fromtimestamp articles s d out :
  filter_articles_by_date_range time_mktime datetime_fromtimestamp articles s d = Ok out →
  Forall (λ x, ∃ t, published_key x = Ok t) out.
Proof.
  intros Hout. apply Forall_forall. intros r Hr.
  destruct (filter_elem_of _ _ _ _ _ _ _ Hout Hr) as (e & ds & dt & _ & _ & _ & _ & ->).
  by exists dt.
Qed.


Example sort_sample_articles :
  sort_articles sample_articles =
  Ok [article_record (entry_published (noon 2024 5 3)) (DateTime (Date 2024 5 3) 12 0 0 0);
      article_record (entry_updated (noon 2024 5 3)) (DateTime (Date 2024 5 3) 12 0 0 0);
      article_record blank_entry (DateTime (Date 2024 5 1) 8 0 0 0)].
Proof. reflexivity. Qed.

Lemma sort_articles_descending_stable_witness :
  ∃ sorted,
    sort_articles sample_articles = Ok sorted ∧
    sorted ≡ₚ sample_articles ∧
    StronglySorted newest_first sorted ∧
    (∀ i j a b, (i < j)%nat → sorted !! i = Some a → sorted !! j = Some b →
       newest_first a b) ∧
    (∀ t, filter (λ x, published_key x = Ok t) sorted =
          filter (λ x, published_key x = Ok t) sample_articles).
Proof.
  apply sort_articles_descending_stable.
  repeat constructor; eexists; reflexivity.
Defined.

(** ** The digest prompt *)


Lemma format_brace_free s args : brace_free s = true → format s args = Ok s.
Proof.
  induction s as [|c s IH]; [done|]. intros Hs.
  destruct (decide (c = "{"%char)) as [->|Hopen]; [done|].
  destruct (decide (c = "}"%char)) as [->|Hclose]; [done|].
  assert (Hs' : brace_free s = true).
  { revert Hs. simpl.
    destruct c as [[] [] [] [] [] [] [] []]; try done. }
  assert (Hstep : format (String c s) args = (r ← format s args; Ok (String c r))).
  { simpl. destruct c as [[] [] [] [] [] [] [] []]; try done. }
  rewrite Hstep, (IH Hs'). done.
Qed.

Lemma format_prefix pre s args :
  brace_free pre = true →
  format (pre +:+ s) args = (r ← format s args; Ok (pre +:+ r)).
Proof.
  induction pre as [|c pre IH]; intros Hpre.
  - change (EmptyString +:+ s) with s. destruct (format s args); reflexivity.
  - destruct (decide (c = "{"%char)) as [->|Hopen]; [done|].
    destruct (decide (c = "}"%char)) as [->|Hclose]; [done|].
    assert (Hpre' : brace_free pre = true).
    { revert Hpre. simpl.
      destruct c as [[] [] [] [] [] [] [] []]; try done. }
    assert (Hstep : ∀ rest, format (String c rest) args =
                            (r ← format rest args; Ok (String c r))).
    { intros rest. simpl. destruct c as [[] [] [] [] [] [] [] []]; try done. }
    change (String c pre +:+ s) with (String c (pre +:+ s)).
    rewrite Hstep, (IH Hpre'). by destruct (format s args).
Qed.

(** A template with one [{}] between two texts without braces. *)
Lemma format_one_field pre post arg :
  brace_free pre = true → brace_free post = true →
  format (pre +:+ "{}" +:+ post) [arg] = Ok (pre +:+ arg +:+ post).
Proof.
  intros Hpre Hpost. rewrite format_prefix by done.
  change ("{}" +:+ post) with (String "{" (String "}" post)). simpl.
  by rewrite (format_brace_free post []).
Qed.


(** C7.  [prompt2] is fixed text with a single replacement field.  With a
    client, [analyze_article_collection] joins the summaries with three
    newlines and submits, under the model name, the fixed text with the
    joined summaries put once in the place of the field.  The fixed text
    after the field directs that links be given in the bracketed-number
    style [[number]](url) and be integrated into the text, not listed
    separately. *)
Theorem digest_prompt_composition (client_t : Type)
    (generate_content : client_t → string → string → result string)
    (c : client_t) (articles_summaries : list string) :
  prompt2 = prompt2_head +:+ "{}" +:+ prompt2_tail ∧
  brace_free prompt2_head = true ∧
  brace_free prompt2_tail = true ∧
  summaries_separator = String "010" (String "010" (String "010" EmptyString)) ∧
  analyze_article_collection client_t generate_content (Some c) articles_summaries =
    generate_content c model_name
      (prompt2_head +:+ join summaries_separator articles_summaries +:+ prompt2_tail) ∧
  contains "Provide links to a few important articles in [[number]](url)" prompt2_tail = true ∧
  contains "The links should be integrated into the text, not listed separately."
    prompt2_tail = true.
Proof.
  split; [reflexivity|]. split; [reflexivity|]. split; [reflexivity|].
  split; [reflexivity|]. split; [|split; reflexivity].
  unfold analyze_article_collection, load_client.
  cbn [mbind result_mbind result_bind].
  change prompt2 with (prompt2_head +:+ "{}" +:+ prompt2_tail).
  rewrite format_one_field by reflexivity. reflexivity.
Qed.

(** ** Fetching never raises *)

Lemma get_articles_from_rss_returns
    (feedparser_parse : string → result parsed_feed) (feed_url : string) :
  ∃ printed found,
    get_articles_from_rss feedparser_parse feed_url = (printed, Ok found).
Proof.
  unfold get_articles_from_rss.
  destruct (feedparser_parse feed_url) as [parsed|err]; [|by eexists _, _].
  destruct parsed as [[] [err|] found]; by eexists _, _.
Qed.

(** C5.  [get_articles_from_rss] always returns a list.  On a document that
    is not well formed (the parser sets [bozo] and gives its error) it prints
    one warning and returns the entries the parser recovered; on a well-formed
    document it prints nothing; when the parser raises it prints the error
    and returns the empty list. *)
Theorem get_articles_from_rss_total
    (feedparser_parse : string → result parsed_feed) (feed_url : string) :
  (∃ printed found,
     get_articles_from_rss feedparser_parse feed_url = (printed, Ok found)) ∧
  (∀ parsed err,
     feedparser_parse feed_url = Ok parsed →
     bozo parsed = true → bozo_exception parsed = Some err →
     get_articles_from_rss feedparser_parse feed_url =
       (["Warning: Feed at " +:+ feed_url +:+ " is not well-formed. Error: " +:+
         exn_msg err], Ok (entries parsed))) ∧
  (∀ parsed,
     feedparser_parse feed_url = Ok parsed → bozo parsed = false →
     get_articles_from_rss feedparser_parse feed_url = ([], Ok (entries parsed))) ∧
  (∀ err,
     feedparser_parse feed_url = Raise err →
     get_articles_from_rss feedparser_parse feed_url =
       (["An unexpected error occurred while fetching " +:+ feed_url +:+ ": " +:+
         exn_msg err], Ok [])).
Proof.
  split; [apply get_articles_from_rss_returns|].
  unfold get_articles_from_rss. repeat split.
  - intros parsed err ->. destruct parsed as [b ex found]. simpl.
    by intros -> ->.
  - intros parsed ->. destruct parsed as [b ex found]. simpl. by intros ->.
  - by intros err ->.
Qed.

Lemma get_articles_from_rss_total_witness :
  get_articles_from_rss
    (λ _, Ok (ParsedFeed true (Some (Exn ValueError "mismatched tag")) [blank_entry]))
    "http://feeds.nature.com/nature/rss/current" =
  (["Warning: Feed at http://feeds.nature.com/nature/rss/current is not well-formed. Error: mismatched tag"],
   Ok [blank_entry]) ∧
  get_articles_from_rss (λ _, Raise (Exn OSError "connection refused"))
    "http://feeds.nature.com/nature/rss/current" =
  (["An unexpected error occurred while fetching http://feeds.nature.com/nature/rss/current: connection refused"],
   Ok []).
Proof.
  split.
  - destruct (get_articles_from_rss_total
                (λ _, Ok (ParsedFeed true (Some (Exn ValueError "mismatched tag"))
                            [blank_entry]))
                "http://feeds.nature.com/nature/rss/current") as (_ & Hbozo & _ & _).
    apply (Hbozo (ParsedFeed true (Some (Exn ValueError "mismatched tag")) [blank_entry])
             (Exn ValueError "mismatched tag")); reflexivity.
  - destruct (get_articles_from_rss_total
                (λ _, Raise (Exn OSError "connection refused"))
                "http://feeds.nature.com/nature/rss/current") as (_ & _ & _ & Hraise).
    apply (Hraise (Exn OSError "connection refused")). reflexivity.
Defined.

(** ** The script's call of the filter *)


Section MainFacts.

Variable time_mktime : struct_time → result Z.
Variable datetime_fromtimestamp : Z → result datetime.
Variable feedparser_parse : string → result parsed_feed.
Variable today : date.

Abbreviation call_filter :=
  (call_filter_articles_by_date_range time_mktime datetime_fromtimestamp).
Abbreviation fetch := (get_articles_from_rss feedparser_parse).
Abbreviation run_feeds :=
  (feeds_loop time_mktime datetime_fromtimestamp feedparser_parse today).

(** Four positional arguments never reach the body. *)
Lemma call_filter_four_arguments a b c d :
  call_filter [a; b; c; d] = Raise (Exn TypeError arity_message).
Proof. reflexivity. Qed.

Lemma fetch_returns feed_url : ∃ printed found, fetch feed_url = (printed, Ok found).
Proof. apply get_articles_from_rss_returns. Qed.


Lemma feeds_loop_raises feeds one_day_ago all_new_articles :
  Exists (feed_has_entries feedparser_parse) feeds →
  ∃ printed,
    run_feeds feeds one_day_ago all_new_articles =
    (printed, Raise (Exn TypeError arity_message)).
Proof.
  intros Hex. revert all_new_articles.
  induction feeds as [|[source_name feed_url] rest IH]; intros acc.
  - by apply Exists_nil in Hex.
  - cbn [feeds_loop]. destruct (fetch_returns feed_url) as (printed & found & Hfetch).
    destruct found as [|first others].
    + apply Exists_cons in Hex as [Hhead|Hrest].
      * destruct Hhead as (? & ? & ? & Hhead). simpl in Hhead.
        rewrite Hfetch in Hhead. done.
      * destruct (IH Hrest acc) as [printed' Hloop].
        unfold mbind, io_mbind, io_bind, mret, io_ret, print. rewrite Hfetch.
        simpl. unfold mbind, io_mbind, io_bind in Hloop. rewrite Hloop.
        by eexists.
    + unfold mbind, io_mbind, io_bind, mret, io_ret, print, lift. rewrite Hfetch.
      rewrite call_filter_four_arguments. by eexists.
Qed.

(** C9.  When the clock gives a date from which seven days can be
    subtracted, and at least one of the feeds returns a non-empty list of
    entries, the script stops with a [TypeError]: it calls
    [filter_articles_by_date_range] with four positional arguments
    (entries, start date, end date, source name) although the function
    takes three, and no filtered articles are returned. *)
Theorem main_raises_type_error one_day_ago :
  date_sub_days today 7 = Ok one_day_ago →
  Exists (feed_has_entries feedparser_parse) target_feeds →
  (∀ entries source_name,
     call_filter [AEntries entries; ADate one_day_ago; ADate today; AStr source_name] =
     Raise (Exn TypeError arity_message)) ∧
  ∃ printed,
    main time_mktime datetime_fromtimestamp feedparser_parse today =
    (printed, Raise (Exn TypeError arity_message)).
Proof.
  intros Hclock Hfeeds. split; [intros; apply call_filter_four_arguments|].
  destruct (feeds_loop_raises target_feeds one_day_ago [] Hfeeds) as [printed Hloop].
  unfold main. rewrite Hclock.
  unfold mbind, io_mbind, io_bind, lift, print in *. rewrite Hloop.
  by eexists.
Qed.

End MainFacts.

(** A run on 2024-05-15 in which the first feed has one entry. *)
Lemma main_raises_type_error_witness :
  ∃ printed,
    main (mktime_fixed 0) (fromtimestamp_fixed 0)
      (λ _, Ok (ParsedFeed false None [entry_published (noon 2024 5 10)]))
      (Date 2024 5 15) =
    (printed, Raise (Exn TypeError arity_message)).
Proof.
  apply (main_raises_type_error (mktime_fixed 0) (fromtimestamp_fixed 0)
           (λ _, Ok (ParsedFeed false None [entry_published (noon 2024 5 10)]))
           (Date 2024 5 15) (Date 2024 5 8)).
  - reflexivity.
  - apply Exists_cons_hd. by eexists _, _, _.
Defined.

(** ** Summarization without a credential *)


(** C1 (the code does not do what it announces).  When the environment has
    no GOOGLE_API_KEY, loading the module prints that summarization will be
    skipped and leaves the name [client] unassigned; [summarize_article] and
    [analyze_article_collection] then raise [NameError] instead of skipping
    or reporting that summarization is unavailable. *)
Theorem summarization_without_key_raises (client_t : Type)
    (genai_Client : string → result client_t)
    (generate_content : client_t → string → string → result string)
    (environ : gmap string string) (article_entry : pyval)
    (articles_summaries : list string) :
  environ !! "GOOGLE_API_KEY"%string = None →
  init_client client_t genai_Client environ = ([missing_key_warning], Ok None) ∧
  summarize_article client_t generate_content None article_entry =
    Raise (Exn NameError "name 'client' is not defined") ∧
  analyze_article_collection client_t generate_content None articles_summaries =
    Raise (Exn NameError "name 'client' is not defined").
Proof.
  intros Hkey. unfold init_client. rewrite Hkey. done.
Qed.

Lemma summarization_without_key_raises_witness :
  init_client unit (λ _, Ok tt) ∅ = ([missing_key_warning], Ok None) ∧
  summarize_article unit (λ _ _ _, Ok EmptyString) None (VStr "An article") =
    Raise (Exn NameError "name 'client' is not defined") ∧
  analyze_article_collection unit (λ _ _ _, Ok EmptyString) None ["A summary"%string] =
    Raise (Exn NameError "name 'client' is not defined").
Proof.
  apply (summarization_without_key_raises unit (λ _, Ok tt) (λ _ _ _, Ok EmptyString) ∅).
  reflexivity.
Defined.

(** * Further properties of the code *)

(** ** More on the filter *)

Lemma date_le_trans a b c :
  date_le a b = true → date_le b c = true → date_le a c = true.
Proof. rewrite !date_le_spec. lia. Qed.

Lemma omap_sublist_mono {A B} (f g : A → option B) (l : list A) :
  (∀ x y, f x = Some y → g x = Some y) → sublist (omap f l) (omap g l).
Proof.
  intros Hfg. induction l as [|x l IH]; simpl; [constructor|].
  destruct (f x) as [y|] eqn:Hf.
  - rewrite (Hfg x y Hf). by constructor.
  - destruct (g x); [by constructor|done].
Qed.

Section FilterMore.

Variable time_mktime : struct_time → result Z.
Variable datetime_fromtimestamp : Z → result datetime.

Lemma filter_ok_resolves articles s d out :
  filter_articles_by_date_range time_mktime datetime_fromtimestamp articles s d = Ok out →
  Forall (resolves time_mktime datetime_fromtimestamp) articles.
Proof.
  revert out. induction articles as [|e l IH]; intros out; [constructor|].
  rewrite filter_range_cons. unfold entry_articles, resolves.
  destruct (date_struct e) as [ds|] eqn:Hds.
  - destruct (published_datetime_of _ _ ds) as [dt|err] eqn:Hdt; simpl; [|done].
    destruct (filter_articles_by_date_range _ _ l s d) as [o|]; simpl; [|done].
    intros _. constructor; [|by eapply IH].
    intros ds' Hds'. rewrite Hds in Hds'. injection Hds' as <-. by exists dt.
  - simpl. destruct (filter_articles_by_date_range _ _ l s d) as [o|]; simpl; [|done].
    intros _. constructor; [|by eapply IH].
    intros ds' Hds'. by rewrite Hds in Hds'.
Qed.

(** X1.  Every record the filter returns carries, under
    [published_datetime], a datetime whose date lies in the window, bounds
    included. *)
Theorem filter_records_in_window articles start_date end_date out r :
  filter_articles_by_date_range time_mktime datetime_fromtimestamp
    articles start_date end_date = Ok out →
  r ∈ out →
  ∃ t, r !! "published_datetime"%string = Some (VDateTime t) ∧
       date_le start_date (dt_date t) = true ∧
       date_le (dt_date t) end_date = true.
Proof.
  intros Hout Hr.
  destruct (filter_elem_of _ _ _ _ _ _ _ Hout Hr)
    as (e & ds & t & _ & _ & _ & Hw & ->).
  apply in_window_spec in Hw as [Hs He]. by exists t.
Qed.

(** X2.  The filter has no handler around the time conversion: it raises
    exactly when the date structure of some entry does not convert, and the
    exception is that of the first such entry. *)
Theorem filter_raises_iff articles start_date end_date err :
  filter_articles_by_date_range time_mktime datetime_fromtimestamp
    articles start_date end_date = Raise err ↔
  ∃ before e after ds,
    articles = before ++ e :: after ∧
    Forall (resolves time_mktime datetime_fromtimestamp) before ∧
    date_struct e = Some ds ∧
    published_datetime_of time_mktime datetime_fromtimestamp ds = Raise err.
Proof.
  split.
  - induction articles as [|e l IH]; [done|].
    rewrite filter_range_cons. unfold entry_articles.
    destruct (date_struct e) as [ds|] eqn:Hds.
    + destruct (published_datetime_of _ _ ds) as [t|err'] eqn:Ht; simpl.
      * destruct (filter_articles_by_date_range _ _ l _ _) as [o|err'] eqn:Hl;
          simpl; [done|].
        intros [= ->]. destruct (IH eq_refl) as (before & e' & after & ds' & -> & ? & ? & ?).
        exists (e :: before), e', after, ds'. repeat split; try done.
        constructor; [|done]. intros ds'' Hds''. rewrite Hds in Hds''.
        injection Hds'' as <-. by exists t.
      * intros [= ->]. exists [], e, l, ds. by repeat split.
    + simpl. destruct (filter_articles_by_date_range _ _ l _ _) as [o|err'] eqn:Hl;
        simpl; [done|].
      intros [= ->]. destruct (IH eq_refl) as (before & e' & after & ds' & -> & ? & ? & ?).
      exists (e :: before), e', after, ds'. repeat split; try done.
      constructor; [|done]. intros ds'' Hds''. by rewrite Hds in Hds''.
  - intros (before & e & after & ds & -> & Hbefore & Hds & Hraise).
    rewrite filter_range_app, (filter_returns _ _ _ _ _ Hbefore), filter_range_cons.
    unfold entry_articles. by rewrite Hds, Hraise.
Qed.

(** X3.  With a window whose end lies before its start the filter keeps
    nothing. *)
Theorem filter_empty_window articles start_date end_date out :
  date_le start_date end_date = false →
  filter_articles_by_date_range time_mktime datetime_fromtimestamp
    articles start_date end_date = Ok out →
  out = [].
Proof.
  intros Hempty Hout. destruct out as [|r out]; [done|].
  destruct (filter_elem_of _ _ _ _ _ _ r Hout) as (e & ds & t & _ & _ & _ & Hw & _);
    [left|].
  apply in_window_spec in Hw as [Hs He].
  by rewrite (date_le_trans _ _ _ Hs He) in Hempty.
Qed.

(** X4.  Widening the window never loses a record: if the filter returns
    for a window, it returns for every window that contains it, and the
    records of the narrower window are a subsequence of those of the wider
    one. *)
Theorem filter_window_monotone articles start_date end_date wide_start wide_end out :
  date_le wide_start start_date = true →
  date_le end_date wide_end = true →
  filter_articles_by_date_range time_mktime datetime_fromtimestamp
    articles start_date end_date = Ok out →
  ∃ wide_out,
    filter_articles_by_date_range time_mktime datetime_fromtimestamp
      articles wide_start wide_end = Ok wide_out ∧
    sublist out wide_out.
Proof.
  intros Hstart Hend Hout.
  pose proof (filter_ok_resolves _ _ _ _ Hout) as Hres.
  eexists. split; [by apply filter_returns|].
  rewrite (filter_ok_omap _ _ _ _ _ _ Hout). apply omap_sublist_mono.
  intros e r Hk. apply kept_record_inv in Hk as (ds & t & Hds & Ht & Hw & ->).
  unfold kept_record. rewrite Hds, Ht.
  apply in_window_spec in Hw as [Hs He].
  assert (Hw' : in_window wide_start wide_end (dt_date t) = true).
  { apply in_window_spec. split; eauto using date_le_trans. }
  by rewrite Hw'.
Qed.

(** X5.  Filtering feed by feed and joining the results, as the script
    does with [extend], is filtering the joined entries: the filter returns
    on a concatenation exactly when it returns on both parts, with the
    concatenation of their results. *)
Theorem filter_concatenation feed1 feed2 start_date end_date out :
  filter_articles_by_date_range time_mktime datetime_fromtimestamp
    (feed1 ++ feed2) start_date end_date = Ok out ↔
  ∃ out1 out2,
    filter_articles_by_date_range time_mktime datetime_fromtimestamp
      feed1 start_date end_date = Ok out1 ∧
    filter_articles_by_date_range time_mktime datetime_fromtimestamp
      feed2 start_date end_date = Ok out2 ∧
    out = out1 ++ out2.
Proof.
  rewrite filter_range_app. split.
  - destruct (filter_articles_by_date_range _ _ feed1 _ _) as [o1|]; simpl; [|done].
    destruct (filter_articles_by_date_range _ _ feed2 _ _) as [o2|]; simpl; [|done].
    intros [= <-]. by exists o1, o2.
  - intros (o1 & o2 & -> & -> & ->). done.
Qed.

(** X6.  Whether an entry is kept is decided by its two date fields and the
    window alone: the title (the keyword hook of lines 93-95 is a no-op) and
    the other fields play no part.  Replacing an entry by one with the same
    date fields changes neither whether the filter returns nor how many
    records it returns. *)
Theorem filter_decision_by_dates e1 e2 start_date end_date :
  published_parsed e1 = published_parsed e2 →
  updated_parsed e1 = updated_parsed e2 →
  (is_Some (kept_record time_mktime datetime_fromtimestamp start_date end_date e1) ↔
   is_Some (kept_record time_mktime datetime_fromtimestamp start_date end_date e2)) ∧
  (∀ before after out1,
     filter_articles_by_date_range time_mktime datetime_fromtimestamp
       (before ++ e1 :: after) start_date end_date = Ok out1 →
     ∃ out2,
       filter_articles_by_date_range time_mktime datetime_fromtimestamp
         (before ++ e2 :: after) start_date end_date = Ok out2 ∧
       length out1 = length out2).
Proof.
  intros Hpub Hupd.
  assert (Hds : date_struct e1 = date_struct e2).
  { unfold date_struct. by rewrite Hpub, Hupd. }
  assert (Hkept : ∀ r1,
    kept_record time_mktime datetime_fromtimestamp start_date end_date e1 = Some r1 →
    ∃ r2, kept_record time_mktime datetime_fromtimestamp start_date end_date e2 = Some r2).
  { intros r1 Hk. apply kept_record_inv in Hk as (ds & t & Hds1 & Ht & Hw & _).
    unfold kept_record. rewrite <- Hds, Hds1, Ht, Hw. by eexists. }
  assert (Hkept' : ∀ r2,
    kept_record time_mktime datetime_fromtimestamp start_date end_date e2 = Some r2 →
    ∃ r1, kept_record time_mktime datetime_fromtimestamp start_date end_date e1 = Some r1).
  { intros r2 Hk. apply kept_record_inv in Hk as (ds & t & Hds2 & Ht & Hw & _).
    unfold kept_record. rewrite Hds, Hds2, Ht, Hw. by eexists. }
  split.
  - split; intros [r Hr]; [destruct (Hkept r Hr)|destruct (Hkept' r Hr)]; eauto.
  - intros before after out1 Hout.
    pose proof (filter_ok_resolves _ _ _ _ Hout) as Hres.
    apply Forall_app in Hres as [Hb Hrest]. apply Forall_cons in Hrest as [He Ha].
    assert (He2 : resolves time_mktime datetime_fromtimestamp e2).
    { intros ds Hds2. apply He. by rewrite Hds. }
    eexists. split.
    + apply filter_returns. apply Forall_app. split; [done|by constructor].
    + rewrite (filter_ok_omap _ _ _ _ _ _ Hout), !omap_app, !length_app. f_equal.
      simpl.
      destruct (kept_record _ _ _ _ e1) as [r1|] eqn:H1.
      * destruct (Hkept r1 eq_refl) as [r2 ->]. done.
      * destruct (kept_record _ _ _ _ e2) as [r2|] eqn:H2; [|done].
        destruct (Hkept' r2 eq_refl) as [r1 Hr1]. done.
Qed.

End FilterMore.

Lemma filter_records_in_window_witness :
  ∃ t, article_record (entry_updated (noon 2024 5 3)) (DateTime (Date 2024 5 3) 12 0 0 0)
         !! "published_datetime"%string = Some (VDateTime t) ∧
       date_le window_start (dt_date t) = true ∧
       date_le (dt_date t) window_end = true.
Proof.
  apply (filter_records_in_window (mktime_fixed 3600) (fromtimestamp_fixed 3600)
           sample_entries window_start window_end
           [article_record (entry_published (noon 2024 5 2))
              (DateTime (Date 2024 5 2) 12 0 0 0);
            article_record (entry_updated (noon 2024 5 3))
              (DateTime (Date 2024 5 3) 12 0 0 0)]).
  - reflexivity.
  - right. left.
Defined.

(** An entry dated in the year 20000, which [fromtimestamp] refuses. *)
Lemma filter_raises_iff_witness :
  filter_cet [entry_published (noon 2024 5 2); entry_published (noon 20000 1 1);
              blank_entry] window_start window_end =
  Raise (Exn ValueError "year is out of range").
Proof.
  apply (filter_raises_iff (mktime_fixed 3600) (fromtimestamp_fixed 3600)).
  exists [entry_published (noon 2024 5 2)], (entry_published (noon 20000 1 1)),
         [blank_entry], (noon 20000 1 1).
  repeat split.
  repeat constructor. apply resolves_fixed. exact I.
Defined.

Lemma filter_empty_window_witness :
  ∃ out, filter_cet sample_entries window_end window_start = Ok out ∧ out = [].
Proof.
  exists []. split; [reflexivity|].
  apply (filter_empty_window (mktime_fixed 3600) (fromtimestamp_fixed 3600)
           sample_entries window_end window_start []); reflexivity.
Defined.

Lemma filter_window_monotone_witness :
  ∃ wide_out,
    filter_cet sample_entries window_start window_end = Ok wide_out ∧
    sublist [article_record (entry_updated (noon 2024 5 3))
               (DateTime (Date 2024 5 3) 12 0 0 0)] wide_out.
Proof.
  apply (filter_window_monotone (mktime_fixed 3600) (fromtimestamp_fixed 3600)
           sample_entries (Date 2024 5 3) (Date 2024 5 3) window_start window_end);
    reflexivity.
Defined.

Lemma filter_concatenation_witness :
  ∃ out1 out2,
    filter_cet [entry_published (noon 2024 5 2); blank_entry]
      window_start window_end = Ok out1 ∧
    filter_cet [entry_updated (noon 2024 5 3)] window_start window_end = Ok out2 ∧
    [article_record (entry_published (noon 2024 5 2)) (DateTime (Date 2024 5 2) 12 0 0 0);
     article_record (entry_updated (noon 2024 5 3)) (DateTime (Date 2024 5 3) 12 0 0 0)] =
    out1 ++ out2.
Proof.
  apply (filter_concatenation (mktime_fixed 3600) (fromtimestamp_fixed 3600)
           [entry_published (noon 2024 5 2); blank_entry]
           [entry_updated (noon 2024 5 3)] window_start window_end).
  reflexivity.
Defined.

Lemma filter_decision_by_dates_witness :
  is_Some (kept_record (mktime_fixed 3600) (fromtimestamp_fixed 3600)
             window_start window_end (entry_published (noon 2024 5 2))) ↔
  is_Some (kept_record (mktime_fixed 3600) (fromtimestamp_fixed 3600)
             window_start window_end
             (Entry (Some "Conference announcement"%string) None
                (Some (Some (noon 2024 5 2))) None None None None None)).
Proof.
  apply (filter_decision_by_dates (mktime_fixed 3600) (fromtimestamp_fixed 3600));
    reflexivity.
Defined.

(** ** More on the sort and the listing *)

Lemma datetime_lt_total a b :
  datetime_lt a b = false → datetime_lt b a = false → a = b.
Proof.
  unfold datetime_lt, datetime_compare. intros Hab Hba.
  apply datetime_compare_eq. unfold datetime_compare.
  rewrite (lex_compare_antisym (datetime_tuple a) (datetime_tuple b)) in Hba.
  by destruct (lex_compare (datetime_tuple a) (datetime_tuple b)).
Qed.

Lemma decorate_undecorated (ks : list (datetime * gmap string pyval)) :
  Forall (λ p, published_key (snd p) = Ok (fst p)) ks →
  decorate (map snd ks) = Ok ks.
Proof.
  induction 1 as [|[k x] ks Hk _ IH]; [done|].
  simpl in *. by rewrite Hk, IH.
Qed.

Lemma sort_articles_ok_inv l sorted :
  sort_articles l = Ok sorted →
  ∃ ks, decorate l = Ok ks ∧
        sorted = map snd (sort_decorated datetime_lt true ks) ∧
        Forall (λ p, published_key (snd p) = Ok (fst p))
          (sort_decorated datetime_lt true ks).
Proof.
  unfold sort_articles. destruct (decorate l) as [ks|] eqn:Hks; [|done].
  cbn [mbind result_mbind result_bind]. intros [= <-].
  exists ks. repeat split.
  destruct (decorate_ok _ _ Hks) as [_ Hall].
  apply Forall_forall. intros p Hp.
  rewrite (sort_decorated_perm datetime_lt ks) in Hp.
  rewrite Forall_forall in Hall. by apply Hall.
Qed.


(** X7.  Sorting is idempotent: sorting a sorted list of records returns
    it unchanged. *)
Theorem sort_articles_idempotent all_new_articles sorted :
  sort_articles all_new_articles = Ok sorted →
  sort_articles sorted = Ok sorted.
Proof.
  intros Hsort. destruct (sort_articles_ok_inv _ _ Hsort) as (ks & _ & -> & Hall).
  unfold sort_articles. rewrite (decorate_undecorated _ Hall).
  cbn [mbind result_mbind result_bind]. do 2 f_equal. symmetry.
  apply (sort_decorated_unique datetime_lt datetime_lt_irrefl datetime_lt_trans
           datetime_lt_cotrans datetime_lt_total); [|done].
  apply sort_decorated_descending; [exact datetime_lt_irrefl|exact datetime_lt_trans].
Qed.



Lemma sort_articles_idempotent_witness :
  sort_articles
    [article_record (entry_published (noon 2024 5 3)) (DateTime (Date 2024 5 3) 12 0 0 0);
     article_record (entry_updated (noon 2024 5 3)) (DateTime (Date 2024 5 3) 12 0 0 0);
     article_record blank_entry (DateTime (Date 2024 5 1) 8 0 0 0)] =
  Ok [article_record (entry_published (noon 2024 5 3)) (DateTime (Date 2024 5 3) 12 0 0 0);
      article_record (entry_updated (noon 2024 5 3)) (DateTime (Date 2024 5 3) 12 0 0 0);
      article_record blank_entry (DateTime (Date 2024 5 1) 8 0 0 0)].
Proof.
  apply (sort_articles_idempotent sample_articles). reflexivity.
Defined.

Lemma records_of_filter time_mktime datetime_fromtimestamp articles s d out :
  filter_articles_by_date_range time_mktime datetime_fromtimestamp articles s d = Ok out →
  ∃ pairs : list (entry * datetime),
    out = map (λ p, article_record (fst p) (snd p)) pairs.
Proof.
  intros Hout.
  assert (Hall : Forall (λ r, ∃ e t, r = article_record e t) out).
  { apply Forall_forall. intros r Hr.
    destruct (filter_elem_of _ _ _ _ _ _ _ Hout Hr) as (e & _ & t & _ & _ & _ & _ & ->).
    by exists e, t. }
  clear Hout. induction Hall as [|r out (e & t & ->) _ [pairs ->]].
  - by exists [].
  - by exists ((e, t) :: pairs).
Qed.

(** X9.  What the filter returns can always be sorted: the sort of the
    report does not raise on it and returns a rearrangement of it. *)
Theorem sort_after_filter time_mktime datetime_fromtimestamp articles
    start_date end_date out :
  filter_articles_by_date_range time_mktime datetime_fromtimestamp
    articles start_date end_date = Ok out →
  ∃ sorted, sort_articles out = Ok sorted ∧ sorted ≡ₚ out.
Proof.
  intros Hout.
  destruct (decorate_returns _ (filter_output_sortable _ _ _ _ _ _ Hout)) as [ks Hks].
  destruct (decorate_ok _ _ Hks) as [Hmap _].
  exists (map snd (sort_decorated datetime_lt true ks)).
  unfold sort_articles. rewrite Hks. split; [done|].
  rewrite <- Hmap. apply fmap_Permutation, sort_decorated_perm.
Qed.

Lemma sort_after_filter_witness :
  ∃ sorted,
    sort_articles
      [article_record (entry_published (noon 2024 5 2)) (DateTime (Date 2024 5 2) 12 0 0 0);
       article_record (entry_updated (noon 2024 5 3)) (DateTime (Date 2024 5 3) 12 0 0 0)] =
    Ok sorted ∧
    sorted ≡ₚ
      [article_record (entry_published (noon 2024 5 2)) (DateTime (Date 2024 5 2) 12 0 0 0);
       article_record (entry_updated (noon 2024 5 3)) (DateTime (Date 2024 5 3) 12 0 0 0)].
Proof.
  apply (sort_after_filter (mktime_fixed 3600) (fromtimestamp_fixed 3600)
           sample_entries window_start window_end).
  reflexivity.
Defined.

Section ListingFacts.

Variable time_mktime : struct_time → result Z.
Variable datetime_fromtimestamp : Z → result datetime.

Lemma listing_loop_records i (pairs : list (entry * datetime)) :
  listing_loop i (map (λ p, article_record (fst p) (snd p)) pairs) =
  (listing_of i pairs, Ok tt).
Proof.
  revert i. induction pairs as [|[e t] pairs IH]; intros i; [done|].
  cbn [map listing_loop listing_of fst snd].
  unfold mbind, io_mbind, io_bind, lift, print.
  change (published_key (article_record e t)) with (Ok (A:=datetime) t).
  change (getitem (article_record e t) "published_datetime")
    with (Ok (VDateTime t)).
  change (getitem (article_record e t) "title")
    with (Ok (VStr (default "No title"%string (title e)))).
  change (getitem (article_record e t) "source")
    with (Ok (default (VStr "Unknown source") (source e))).
  change (getitem (article_record e t) "url")
    with (Ok (VStr (default "No link"%string (link e)))).
  cbn [app]. rewrite IH. reflexivity.
Qed.

Lemma listing_of_length i (pairs : list (entry * datetime)) :
  length (listing_of i pairs) = (3 * length pairs)%nat.
Proof.
  revert i. induction pairs as [|[e t] pairs IH]; intros i; [done|].
  simpl. rewrite IH. lia.
Qed.

Lemma listing_of_lookup i (pairs : list (entry * datetime)) k e t :
  pairs !! k = Some (e, t) →
  listing_of i pairs !! (3 * k)%nat =
  Some (newline +:+ str_int (i + Z.of_nat k) +:+ ". " +:+ default "No title"%string (title e)).
Proof.
  revert i k. induction pairs as [|[e' t'] pairs IH]; intros i k; [done|].
  destruct k as [|k].
  - intros [= -> ->]. simpl. by rewrite Z.add_0_r.
  - intros Hk. simpl in Hk. cbn [listing_of].
    rewrite lookup_app_r by (simpl; lia).
    replace (3 * S k - length (listing_lines i e' t'))%nat with (3 * k)%nat
      by (simpl; lia).
    rewrite (IH (i + 1) k Hk).
    by replace (i + 1 + Z.of_nat k) with (i + Z.of_nat (S k)) by lia.
Qed.

(** X10.  On the records the filter returns the listing never raises: it
    prints three lines per record, and the first line of the record at
    position [k] carries the number [i + k] and the record's title. *)
Theorem listing_of_filter_output articles start_date end_date out i :
  filter_articles_by_date_range time_mktime datetime_fromtimestamp
    articles start_date end_date = Ok out →
  ∃ printed,
    listing_loop i out = (printed, Ok tt) ∧
    length printed = (3 * length out)%nat ∧
    ∀ k r, out !! k = Some r →
      ∃ text, r !! "title"%string = Some (VStr text) ∧
              printed !! (3 * k)%nat =
              Some (newline +:+ str_int (i + Z.of_nat k) +:+ ". " +:+ text).
Proof.
  intros Hout. destruct (records_of_filter _ _ _ _ _ _ Hout) as [pairs ->].
  exists (listing_of i pairs). split; [apply listing_loop_records|].
  split; [by rewrite listing_of_length, length_map|].
  intros k r Hk. apply list_lookup_fmap_Some in Hk as ([e t] & -> & Hk).
  exists (default "No title"%string (title e)). split; [done|].
  by eapply listing_of_lookup.
Qed.

End ListingFacts.

Lemma listing_of_filter_output_witness :
  ∃ printed,
    listing_loop 1
      [article_record (entry_published (noon 2024 5 2)) (DateTime (Date 2024 5 2) 12 0 0 0);
       article_record (entry_updated (noon 2024 5 3)) (DateTime (Date 2024 5 3) 12 0 0 0)] =
    (printed, Ok tt) ∧
    length printed = 6%nat.
Proof.
  destruct (listing_of_filter_output (mktime_fixed 3600) (fromtimestamp_fixed 3600)
              sample_entries window_start window_end
              [article_record (entry_published (noon 2024 5 2))
                 (DateTime (Date 2024 5 2) 12 0 0 0);
               article_record (entry_updated (noon 2024 5 3))
                 (DateTime (Date 2024 5 3) 12 0 0 0)] 1 eq_refl)
    as (printed & Hrun & Hlen & _).
  exists printed. split; [exact Hrun|exact Hlen].
Defined.

(** ** More on the script *)

Section ScriptFacts.

Variable time_mktime : struct_time → result Z.
Variable datetime_fromtimestamp : Z → result datetime.
Variable feedparser_parse : string → result parsed_feed.
Variable today : date.

(** The loop over the feeds either stops at the call of the filter or
    returns the list of articles it was given. *)
Lemma feeds_loop_outcome feeds one_day_ago all_new_articles :
  ∃ printed,
    feeds_loop time_mktime datetime_fromtimestamp feedparser_parse today
      feeds one_day_ago all_new_articles =
      (printed, Raise (Exn TypeError arity_message)) ∨
    feeds_loop time_mktime datetime_fromtimestamp feedparser_parse today
      feeds one_day_ago all_new_articles = (printed, Ok all_new_articles).
Proof.
  induction feeds as [|[source_name feed_url] rest IH]; [by eexists; right|].
  cbn [feeds_loop].
  destruct (get_articles_from_rss_returns feedparser_parse feed_url)
    as (printed & found & Hfetch).
  unfold mbind, io_mbind, io_bind, mret, io_ret, print, lift. rewrite Hfetch.
  destruct found as [|first others].
  - destruct IH as [printed' [Hloop|Hloop]];
      unfold mbind, io_mbind, io_bind in Hloop; rewrite Hloop;
      eexists; [by left|by right].
  - eexists. by left.
Qed.

Lemma feeds_loop_without_entries feeds one_day_ago all_new_articles :
  Forall (λ feed, ∃ printed,
            get_articles_from_rss feedparser_parse (snd feed) = (printed, Ok []))
    feeds →
  ∃ printed,
    feeds_loop time_mktime datetime_fromtimestamp feedparser_parse today
      feeds one_day_ago all_new_articles = (printed, Ok all_new_articles).
Proof.
  induction 1 as [|[source_name feed_url] rest [printed Hfetch] _ [printed' Hloop]];
    [by eexists|].
  cbn [feeds_loop]. simpl in Hfetch.
  unfold mbind, io_mbind, io_bind, mret, io_ret, print, lift in *.
  rewrite Hfetch, Hloop. by eexists.
Qed.

(** X11.  When no feed returns an entry the script runs to its end without
    raising, and the last line it prints says that no new articles were
    found. *)
Theorem main_without_entries one_day_ago :
  date_sub_days today 7 = Ok one_day_ago →
  Forall (λ feed, ∃ printed,
            get_articles_from_rss feedparser_parse (snd feed) = (printed, Ok []))
    target_feeds →
  ∃ printed,
    main time_mktime datetime_fromtimestamp feedparser_parse today =
    (printed ++ [no_articles_line], Ok tt).
Proof.
  intros Hclock Hfeeds.
  destruct (feeds_loop_without_entries target_feeds one_day_ago [] Hfeeds)
    as [printed Hloop].
  unfold main. rewrite Hclock.
  unfold mbind, io_mbind, io_bind, lift, print in *. rewrite Hloop.
  exists (("Fetching articles published between " +:+ strftime_ymd one_day_ago +:+
           " and " +:+ strftime_ymd today +:+ newline) :: printed).
  reflexivity.
Qed.

(** X12.  As the script stands it never lists an article: whatever the
    feeds return, a run stops with the [TypeError] of the call of the filter
    or ends with the line saying that no new articles were found. *)
Theorem main_never_lists one_day_ago :
  date_sub_days today 7 = Ok one_day_ago →
  ∃ printed,
    main time_mktime datetime_fromtimestamp feedparser_parse today =
      (printed, Raise (Exn TypeError arity_message)) ∨
    main time_mktime datetime_fromtimestamp feedparser_parse today =
      (printed ++ [no_articles_line], Ok tt).
Proof.
  intros Hclock.
  destruct (feeds_loop_outcome target_feeds one_day_ago []) as [printed [Hloop|Hloop]];
    unfold main; rewrite Hclock;
    unfold mbind, io_mbind, io_bind, lift, print in *; rewrite Hloop.
  - eexists. by left.
  - exists (("Fetching articles published between " +:+ strftime_ymd one_day_ago +:+
             " and " +:+ strftime_ymd today +:+ newline) :: printed).
    by right.
Qed.

End ScriptFacts.

Lemma main_without_entries_witness :
  ∃ printed,
    main (mktime_fixed 0) (fromtimestamp_fixed 0)
      (λ _, Raise (Exn OSError "no route to host")) (Date 2024 5 15) =
    (printed ++ [no_articles_line], Ok tt).
Proof.
  apply (main_without_entries (mktime_fixed 0) (fromtimestamp_fixed 0)
           (λ _, Raise (Exn OSError "no route to host")) (Date 2024 5 15)
           (Date 2024 5 8)).
  - reflexivity.
  - repeat constructor; by eexists.
Defined.

Lemma main_never_lists_witness :
  ∃ printed,
    main (mktime_fixed 0) (fromtimestamp_fixed 0)
      (λ _, Ok (ParsedFeed false None [entry_published (noon 2024 5 10)]))
      (Date 2024 5 15) =
      (printed, Raise (Exn TypeError arity_message)) ∨
    main (mktime_fixed 0) (fromtimestamp_fixed 0)
      (λ _, Ok (ParsedFeed false None [entry_published (noon 2024 5 10)]))
      (Date 2024 5 15) =
      (printed ++ [no_articles_line], Ok tt).
Proof.
  apply (main_never_lists (mktime_fixed 0) (fromtimestamp_fixed 0)
           (λ _, Ok (ParsedFeed false None [entry_published (noon 2024 5 10)]))
           (Date 2024 5 15) (Date 2024 5 8)).
  reflexivity.
Defined.

(** ** More on the summarization client *)

(** X13.  Loading the module never raises, whatever [genai.Client] does:
    the handlers turn every failure into a printed line.  The name [client]
    ends up assigned exactly when the key is set, is not empty, and the
    constructor returned; nothing is printed in that case, and one line is
    printed in every other. *)
Theorem init_client_never_raises (client_t : Type)
    (genai_Client : string → result client_t) (environ : gmap string string) :
  ∃ printed client,
    init_client client_t genai_Client environ = (printed, Ok client) ∧
    (∀ c, client = Some c ↔
          ∃ key, environ !! "GOOGLE_API_KEY"%string = Some key ∧
                 key ≠ EmptyString ∧ genai_Client key = Ok c) ∧
    (is_Some client → printed = []) ∧
    (client = None → length printed = 1%nat).
Proof.
  unfold init_client.
  destruct (environ !! "GOOGLE_API_KEY"%string) as [[|ch key]|] eqn:Hkey.
  - eexists _, None. split; [reflexivity|]. split; [|split].
    + intros c. split; [done|]. intros (key & Heq & Hne & _).
      injection Heq as <-. done.
    + by intros [].
    + done.
  - destruct (genai_Client (String ch key)) as [c|err] eqn:Hnew.
    + exists [], (Some c).
      split; [reflexivity|]. split; [|split].
      * intros c'. split.
        -- intros [= <-]. by exists (String ch key).
        -- intros (key' & Heq & _ & Hc). injection Heq as <-.
           rewrite Hnew in Hc. by injection Hc as ->.
      * done.
      * done.
    + assert (Hnot : ∀ c', (None : option client_t) = Some c' ↔
                ∃ key', Some (String ch key) = Some key' ∧
                         key' ≠ EmptyString ∧ genai_Client key' = Ok c').
      { intros c'. split; [done|]. intros (key' & Heq & _ & Hc).
        injection Heq as <-. by rewrite Hnew in Hc. }
      destruct err as [[] msg]; eexists _, None;
        (split; [reflexivity|]; split; [exact Hnot|]; split; [by intros []|done]).
  - eexists _, None. split; [reflexivity|]. split; [|split].
    + intros c. split; [done|]. by intros (key & ? & _).
    + by intros [].
    + done.
Qed.

Lemma init_client_never_raises_witness :
  ∃ printed client,
    init_client unit (λ _, Raise (Exn ValueError "invalid key"))
      {[ "GOOGLE_API_KEY"%string := "abc"%string ]} = (printed, Ok client) ∧
    length printed = 1%nat.
Proof.
  destruct (init_client_never_raises unit (λ _, Raise (Exn ValueError "invalid key"))
              {[ "GOOGLE_API_KEY"%string := "abc"%string ]})
    as (printed & client & Hrun & Hsome & _ & Hnone).
  exists printed, client. split; [exact Hrun|].
  apply Hnone. destruct client as [c|]; [|reflexivity].
  destruct (proj1 (Hsome c) eq_refl) as (key & _ & _ & Hc). discriminate Hc.
Defined.

(** X14.  [prompt] is fixed text with a single replacement field.  With a
    client, [summarize_article] submits, under the model name, the fixed
    text with the article's text put once in the place of the field, and
    returns what the backend returns: its text, or its exception. *)
Theorem single_article_prompt (client_t : Type)
    (generate_content : client_t → string → string → result string)
    (c : client_t) (text : string) :
  prompt = prompt_head +:+ "{}" +:+ prompt_tail ∧
  brace_free prompt_head = true ∧
  brace_free prompt_tail = true ∧
  summarize_article client_t generate_content (Some c) (VStr text) =
    generate_content c model_name (prompt_head +:+ text +:+ prompt_tail).
Proof.
  split; [reflexivity|]. split; [reflexivity|]. split; [reflexivity|].
  unfold summarize_article, load_client.
  cbn [mbind result_mbind result_bind py_str].
  change prompt with (prompt_head +:+ "{}" +:+ prompt_tail).
  rewrite format_one_field by reflexivity. reflexivity.
Qed.

(** ** The HTML wrapper *)









(** ** The list of sources *)

Lemma read_items_app l1 l2 acc :
  read_items (l1 ++ l2) acc = (m ← read_items l1 acc; read_items l2 m).
Proof.
  revert acc. induction l1 as [|item l1 IH]; intros acc; [done|]. simpl.
  destruct (item_getitem item "url") as [url|]; simpl; [|done].
  destruct (item_getitem item "name") as [name|]; simpl; [|done].
  apply IH.
Qed.

Lemma read_items_returns l acc :
  Forall names_source l → ∃ m, read_items l acc = Ok m.
Proof.
  intros Hall. revert acc.
  induction Hall as [|item l [[name Hname] [url Hurl]] _ IH]; intros acc;
    [by eexists|].
  simpl. unfold item_getitem. rewrite Hurl, Hname. simpl. apply IH.
Qed.

Lemma read_items_other l acc m name :
  read_items l acc = Ok m →
  (∀ item, item ∈ l → item !! "name"%string ≠ Some name) →
  m !! name = acc !! name.
Proof.
  revert acc. induction l as [|item l IH]; intros acc; simpl.
  - by intros [= <-].
  - unfold item_getitem.
    destruct (item !! "url"%string) as [url|]; simpl; [|done].
    destruct (item !! "name"%string) as [name'|] eqn:Hname; simpl; [|done].
    intros Hread Hother. rewrite (IH _ Hread).
    + apply lookup_insert_ne. intros ->.
      by apply (Hother item); [left|].
    + intros item' Hin. apply Hother. by right.
Qed.

Section ConfigFacts.

Variable load_yaml : string → result (option (list (gmap string string))).

(** X16.  When every item of the document has a name and a url, the
    function returns a mapping in which each name has the url of the last
    item of that name, and in which no other name occurs. *)
Theorem read_rss_from_yaml_last_wins rss_dir items :
  load_yaml rss_dir = Ok (Some items) →
  Forall names_source items →
  ∃ sources,
    read_rss_from_yaml load_yaml rss_dir = Ok sources ∧
    (∀ i item name url,
       items !! i = Some item →
       item !! "name"%string = Some name →
       item !! "url"%string = Some url →
       (∀ j later, (i < j)%nat → items !! j = Some later →
                   later !! "name"%string ≠ Some name) →
       sources !! name = Some url) ∧
    (∀ name,
       (∀ item, item ∈ items → item !! "name"%string ≠ Some name) →
       sources !! name = None).
Proof.
  intros Hload Hall.
  destruct (read_items_returns items ∅ Hall) as [sources Hread].
  exists sources. split; [|split].
  - unfold read_rss_from_yaml. rewrite Hload. simpl.
    destruct items; [by injection Hread as <-|done].
  - intros i item name url Hi Hname Hurl Hlast.
    pose proof (take_drop_middle _ _ _ Hi) as Hsplit.
    rewrite <- Hsplit, read_items_app in Hread.
    destruct (read_items (take i items) ∅) as [before|] eqn:Hbefore; [|done].
    simpl in Hread. unfold item_getitem in Hread. rewrite Hurl, Hname in Hread.
    simpl in Hread. rewrite (read_items_other _ _ _ name Hread).
    + apply lookup_insert_eq.
    + intros later Hin. apply list_elem_of_lookup in Hin as [k Hk].
      apply (Hlast (S i + k)%nat); [lia|].
      rewrite lookup_drop in Hk. exact Hk.
  - intros name Hnone. by rewrite (read_items_other _ _ _ name Hread).
Qed.

(** X17.  The function has no handler.  A failure to open or parse the
    file is raised as it is; an item without a url raises [KeyError] for
    'url' (also when it has no name either), and an item with a url but no
    name raises [KeyError] for 'name'; an empty document gives the empty
    mapping. *)
Theorem read_rss_from_yaml_failures rss_dir :
  (∀ err, load_yaml rss_dir = Raise err →
          read_rss_from_yaml load_yaml rss_dir = Raise err) ∧
  (∀ before item after,
     load_yaml rss_dir = Ok (Some (before ++ item :: after)) →
     Forall names_source before →
     item !! "url"%string = None →
     read_rss_from_yaml load_yaml rss_dir = Raise (Exn KeyError "'url'")) ∧
  (∀ before item after,
     load_yaml rss_dir = Ok (Some (before ++ item :: after)) →
     Forall names_source before →
     is_Some (item !! "url"%string) →
     item !! "name"%string = None →
     read_rss_from_yaml load_yaml rss_dir = Raise (Exn KeyError "'name'")) ∧
  (load_yaml rss_dir = Ok None ∨ load_yaml rss_dir = Ok (Some []) →
   read_rss_from_yaml load_yaml rss_dir = Ok ∅).
Proof.
  unfold read_rss_from_yaml. repeat split.
  - by intros err ->.
  - intros before item after -> Hbefore Hurl. simpl.
    destruct (read_items_returns before ∅ Hbefore) as [m Hm].
    assert (Hread : read_items (before ++ item :: after) ∅ = Raise (Exn KeyError "'url'")).
    { rewrite read_items_app, Hm. simpl. unfold item_getitem. by rewrite Hurl. }
    by destruct before.
  - intros before item after -> Hbefore [url Hurl] Hname. simpl.
    destruct (read_items_returns before ∅ Hbefore) as [m Hm].
    assert (Hread : read_items (before ++ item :: after) ∅ = Raise (Exn KeyError "'name'")).
    { rewrite read_items_app, Hm. simpl. unfold item_getitem. by rewrite Hurl, Hname. }
    by destruct before.
  - by intros [-> | ->].
Qed.

End ConfigFacts.

(** A document with two items of the same name. *)
Lemma read_rss_from_yaml_last_wins_witness :
  ∃ sources,
    read_rss_from_yaml
      (λ _, Ok (Some [ {[ "name" := "Nature"; "url" := "http://old.example/rss" ]};
                       {[ "name" := "Science"; "url" := "http://science.example/rss" ]};
                       {[ "name" := "Nature"; "url" := "http://new.example/rss" ]} ]))%string
      "rss.yaml" = Ok sources ∧
    sources !! "Nature"%string = Some "http://new.example/rss"%string.
Proof.
  destruct (read_rss_from_yaml_last_wins
              (λ _, Ok (Some [ {[ "name" := "Nature"; "url" := "http://old.example/rss" ]};
                               {[ "name" := "Science"; "url" := "http://science.example/rss" ]};
                               {[ "name" := "Nature"; "url" := "http://new.example/rss" ]} ]))%string
              "rss.yaml" _ eq_refl) as (sources & Hread & Hlast & _).
  - repeat constructor; by eexists.
  - exists sources. split; [exact Hread|].
    apply (Hlast 2%nat {[ "name" := "Nature"; "url" := "http://new.example/rss" ]}%string);
      try reflexivity.
    intros [|[|[|j]]] later Hj Hlater; try lia; discriminate Hlater.
Defined.

Lemma read_rss_from_yaml_failures_witness :
  read_rss_from_yaml
    (λ _, Ok (Some [ {[ "name" := "Nature"; "url" := "http://nature.example/rss" ]};
                     {[ "url" := "http://science.example/rss" ]} ]))%string
    "rss.yaml" = Raise (Exn KeyError "'name'").
Proof.
  destruct (read_rss_from_yaml_failures
              (λ _, Ok (Some [ {[ "name" := "Nature"; "url" := "http://nature.example/rss" ]};
                               {[ "url" := "http://science.example/rss" ]} ]))%string
              "rss.yaml") as (_ & _ & Hname & _).
  apply (Hname [ {[ "name" := "Nature"; "url" := "http://nature.example/rss" ]} ]%string
           {[ "url" := "http://science.example/rss" ]}%string []).
  - reflexivity.
  - repeat constructor; by eexists.
  - by eexists.
  - reflexivity.
Defined.
